(** * gtsam-quadrics: the bounding-box factor between a camera pose and a
      constrained dual quadric

    Shallow embedding of [gtsam_quadrics/geometry/BoundingBoxFactor.cpp]
    ([evaluateError], [evaluateH1], [evaluateH2], [equals]) and of the class
    declared in [quadricslam/geometry/DualConic.h].

    The C++ code computes on [double].  The embedding is generic in the
    scalar arithmetic (class [Scalar]), with binary64 floats and exact
    rationals as instances; the geometry that the factor calls into
    (projection, bounds of the projected conic) is worked out over the
    rationals.
    Exceptions are explicit values; the factor instance and the two
    optional Jacobian output arguments live in a store that is threaded
    through every call. *)

From Stdlib Require Import String List Bool ZArith QArith Qabs Lia Lqa.
From Stdlib Require Import Floats Uint63 Ascii NArith.
Import ListNotations.

Set Implicit Arguments.

(* ===================================================================== *)
(** ** Scalars, vectors and matrices (Eigen) *)
(* ===================================================================== *)

(** The arithmetic the factor uses on matrix entries.  [lit] reads a decimal
    literal of the source, such as [1000.0] or [1e-6]. *)
Class Scalar (R : Type) : Type := {
  s_zero : R;
  s_one  : R;
  s_add  : R -> R -> R;
  s_sub  : R -> R -> R;
  s_mul  : R -> R -> R;
  lit    : Q -> R
}.

Section LinearAlgebra.
Context {R : Type} `{Scalar R}.

(** A dynamic [Vector] is the list of its entries, a [Matrix] the list of
    its rows. *)
Definition Vector : Type := list R.
Definition Matrix : Type := list (list R).

(** [Matrix::Zero(rows, cols)] *)
Definition Zero (rows cols : nat) : Matrix := repeat (repeat s_zero cols) rows.

(** [Vector4::Ones()] and its siblings *)
Definition Ones (n : nat) : Vector := repeat s_one n.

(** [v * k] for a vector and a scalar *)
Definition vscale (v : Vector) (k : R) : Vector := map (fun x => s_mul x k) v.

(** [a - b], componentwise *)
Fixpoint vsub (a b : Vector) : Vector :=
  match a, b with
  | x :: a', y :: b' => s_sub x y :: vsub a' b'
  | _, _ => []
  end.

Fixpoint dot (a b : Vector) : R :=
  match a, b with
  | x :: a', y :: b' => s_add (s_mul x y) (dot a' b')
  | _, _ => s_zero
  end.

Definition ncols (m : Matrix) : nat :=
  match m with
  | [] => 0
  | row :: _ => length row
  end.

Definition column (j : nat) (m : Matrix) : Vector :=
  map (fun row => nth j row s_zero) m.

(** [a * b] for two matrices: entry (i, j) is row i of [a] against
    column j of [b]. *)
Definition mmul (a b : Matrix) : Matrix :=
  map (fun row => map (fun j => dot row (column j b)) (seq 0 (ncols b))) a.

Definition transpose (m : Matrix) : Matrix :=
  map (fun j => column j m) (seq 0 (ncols m)).

(** [m(i, j)], the coefficient in row [i] and column [j]. *)
Definition coeff (m : Matrix) (i j : nat) : R := nth j (nth i m []) s_zero.

(** [x0 + (x1 + ( ... + 0))] *)
Fixpoint sum_list (l : list R) : R :=
  match l with
  | [] => s_zero
  | x :: l' => s_add x (sum_list l')
  end.

(** What linear algebra calls the coefficient (i, j) of the product of [a]
    and [b] over [n] inner indices, written with the scalar operations
    alone: the sum over k < n of [a(i, k) * b(k, j)].  It does not go
    through [mmul]; the products of the factor are measured against it. *)
Definition product_coeff (a b : Matrix) (n i j : nat) : R :=
  sum_list (map (fun k => s_mul (coeff a i k) (coeff b k j)) (seq 0 n)).

(** The shape of a matrix, as a decidable test. *)
Definition has_shape (rows cols : nat) (m : Matrix) : bool :=
  Nat.eqb (length m) rows && forallb (fun row => Nat.eqb (length row) cols) m.

(** The empty matrix a default-constructed [Matrix] holds. *)
Definition empty_Matrix : Matrix := [].
End LinearAlgebra.

Arguments Vector R : clear implicits.
Arguments Matrix R : clear implicits.

(* ===================================================================== *)
(** ** Exceptions and the evaluation monad *)
(* ===================================================================== *)

(** The dynamic class of a thrown object, as far as the handlers of
    [evaluateError] can tell them apart. *)
Inductive exception : Type :=
| QuadricProjectionException (what : string)
| std_runtime_error (what : string)
| std_exception (what : string).

Definition result (A : Type) : Type := (exception + A)%type.

(** [catch (QuadricProjectionException& e)] *)
Definition is_QuadricProjectionException (e : exception) : bool :=
  match e with
  | QuadricProjectionException _ => true
  | _ => false
  end.

(** [catch (std::runtime_error& e)].  Whether the project's exception class
    derives from [std::runtime_error] is decided by a header that is not part
    of the sources at hand, so it is a parameter. *)
Definition is_runtime_error (qpe_derives_runtime_error : bool) (e : exception) : bool :=
  match e with
  | QuadricProjectionException _ => qpe_derives_runtime_error
  | std_runtime_error _ => true
  | std_exception _ => false
  end.

Module Comp.
Section Monad.
Variable Store : Type.

(** A computation reads and writes the store and either returns a value
    or leaves with an exception; the store survives a throw. *)
Definition M (A : Type) : Type := Store -> result A * Store.

Definition ret {A} (a : A) : M A := fun s => (inr a, s).

Definition bind {A B} (m : M A) (f : A -> M B) : M B :=
  fun s =>
    match m s with
    | (inl e, s') => (inl e, s')
    | (inr a, s') => f a s'
    end.

Definition throw {A} (e : exception) : M A := fun s => (inl e, s).

(** A call of a function that touches no store. *)
Definition call {A} (r : result A) : M A := fun s => (r, s).

Definition gets {A} (f : Store -> A) : M A := fun s => (inr (f s), s).

Definition modify (f : Store -> Store) : M unit := fun s => (inr tt, f s).

(** [try { body } catch (C& e) { handler }], [handles] telling whether
    the thrown object is of class [C]. *)
Definition try_catch {A} (body : M A) (handles : exception -> bool)
           (handler : exception -> M A) : M A :=
  fun s =>
    match body s with
    | (inl e, s') => if handles e then handler e s' else (inl e, s')
    | (inr a, s') => (inr a, s')
    end.

(** [if (c) { m }] *)
Definition when (c : bool) (m : M unit) : M unit := if c then m else ret tt.
End Monad.
End Comp.

Declare Scope comp_scope.
Delimit Scope comp_scope with comp.
Notation "x <- m ;; k" := (Comp.bind m (fun x => k))
  (at level 61, m at next level, right associativity) : comp_scope.
Notation "' p <- m ;; k" := (Comp.bind m (fun x => let p := x in k))
  (at level 61, p pattern, m at next level, right associativity) : comp_scope.
Notation "m ;; k" := (Comp.bind m (fun _ => k))
  (at level 61, right associativity) : comp_scope.

(* ===================================================================== *)
(** ** Data model *)
(* ===================================================================== *)

(** [class DualConic] of DualConic.h: a 3x3 matrix [dC_]. *)
Record DualConic (R : Type) : Type := mkDualConic { dC_ : Matrix R }.

(** [DualConic::matrix] *)
Definition matrix {R} (c : DualConic R) : Matrix R := dC_ c.

(** Modelled from the spec: the class [AlignedBox2] (AlignedBox2.h is not
    among the sources).  The spec stores a box as (xmin, ymin, xmax, ymax);
    [vector] lists the four edges in that order. *)
Record AlignedBox2 (R : Type) : Type := mkAlignedBox2 {
  xmin : R;
  ymin : R;
  xmax : R;
  ymax : R
}.

Definition vector {R} (b : AlignedBox2 R) : Vector R :=
  [xmin b; ymin b; xmax b; ymax b].

(** The two error modes, [errorType_ == SIMPLE] and [errorType_ == COMPLEX]. *)
Inductive ErrorType : Type := SIMPLE | COMPLEX.

(** A GTSAM [Key] is an unsigned 64-bit integer. *)
Definition Key : Type := N.

(** What the factor takes from code that is not in BoundingBoxFactor.cpp:
    the GTSAM types, the projection of [QuadricCamera], the two bounds
    extractions of [DualConic], GTSAM's numerical derivatives and the
    [equals] of the members.

    A callee that receives an optional Jacobian pointer is given a flag
    (pointer non-null) and returns, next to its value, the content of the
    caller's buffer after the call; that content means something only when
    the flag was set. *)
Class Collaborators (R : Type) : Type := {
  Pose3 : Type;
  ConstrainedDualQuadric : Type;
  Cal3_S2 : Type;
  SharedNoiseModel : Type;
  (** [QuadricCamera::project(quadric, pose, calibration, dC_dq, dC_dx)] *)
  project : ConstrainedDualQuadric -> Pose3 -> Cal3_S2 -> bool -> bool ->
            result (DualConic R * Matrix R * Matrix R);
  (** [DualConic::bounds(H)] *)
  bounds : DualConic R -> bool -> result (AlignedBox2 R * Matrix R);
  (** [DualConic::smartBounds(calibration, H)] *)
  smartBounds : DualConic R -> Cal3_S2 -> bool -> result (AlignedBox2 R * Matrix R);
  (** [numericalDerivative21(h, x1, x2, delta)], [numericalDerivative22] *)
  numericalDerivative21 :
    (Pose3 -> ConstrainedDualQuadric -> result (Vector R)) ->
    Pose3 -> ConstrainedDualQuadric -> R -> result (Matrix R);
  numericalDerivative22 :
    (Pose3 -> ConstrainedDualQuadric -> result (Vector R)) ->
    Pose3 -> ConstrainedDualQuadric -> R -> result (Matrix R);
  (** [AlignedBox2::equals], [Cal3_S2::equals], [noiseModel::Base::equals] *)
  box_equals : AlignedBox2 R -> AlignedBox2 R -> R -> bool;
  calibration_equals : Cal3_S2 -> Cal3_S2 -> R -> bool;
  noiseModel_equals : SharedNoiseModel -> SharedNoiseModel -> R -> bool;
  (** does [QuadricProjectionException] derive from [std::runtime_error]? *)
  qpe_derives_runtime_error : bool
}.

(** [#define NUMERICAL_DERIVATIVE false] *)
Definition NUMERICAL_DERIVATIVE : bool := false.

Section Factor.
Context {R : Type} {SR : Scalar R} {C : Collaborators R}.

(** The members of a [BoundingBoxFactor]: its own and those of the
    [NoiseModelFactor2] it derives from. *)
Record BoundingBoxFactor : Type := mkBoundingBoxFactor {
  measured_    : AlignedBox2 R;
  calibration_ : Cal3_S2;
  errorType_   : ErrorType;
  noiseModel   : SharedNoiseModel;
  key1         : Key;
  key2         : Key
}.

(** What a call of [evaluateError] can read and write: the instance
    ([this]) and the two matrices the optional references [H1] and [H2]
    point to ([None]: [boost::none] was passed). *)
Record Store : Type := mkStore {
  this : BoundingBoxFactor;
  H1 : option (Matrix R);
  H2 : option (Matrix R)
}.

Definition isSome {A} (o : option A) : bool :=
  match o with
  | Some _ => true
  | None => false
  end.

(** [*H1 = m] and [*H2 = m] *)
Definition assign_H1 (m : Matrix R) : Comp.M Store unit :=
  Comp.modify (fun s => mkStore (this s) (Some m) (H2 s)).
Definition assign_H2 (m : Matrix R) : Comp.M Store unit :=
  Comp.modify (fun s => mkStore (this s) (H1 s) (Some m)).

Local Open Scope comp_scope.

(** The body of [evaluateError] (lines 31-159), [funPtr] standing for the
    bound member function that the numerical-derivative branch hands to
    GTSAM. *)
Definition evaluateError_with
           (funPtr : Pose3 -> ConstrainedDualQuadric -> result (Vector R))
           (pose : Pose3) (quadric : ConstrainedDualQuadric)
  : Comp.M Store (Vector R) :=
  Comp.try_catch
    (self <- Comp.gets this ;;
     wantH1 <- Comp.gets (fun s => isSome (H1 s)) ;;
     wantH2 <- Comp.gets (fun s => isSome (H2 s)) ;;
     (* project quadric taking into account partial derivatives *)
     ' (dualConic, dC_dq, dC_dx) <-
       Comp.call (if negb NUMERICAL_DERIVATIVE
                  then project quadric pose (calibration_ self) wantH2 wantH1
                  else project quadric pose (calibration_ self) false false) ;;
     (* calculate conic bounds with derivatives *)
     let computeJacobians := (wantH1 || wantH2) && negb NUMERICAL_DERIVATIVE in
     ' (predictedBounds, db_dC) <-
       match errorType_ self with
       | SIMPLE => Comp.call (bounds dualConic computeJacobians)
       | COMPLEX =>
           Comp.try_catch
             (Comp.call (smartBounds dualConic (calibration_ self) computeJacobians))
             (is_runtime_error qpe_derives_runtime_error)
             (fun _ => Comp.throw (QuadricProjectionException "smartbounds failed"))
       end ;;
     (* evaluate error *)
     let error := vsub (vector predictedBounds) (vector (measured_ self)) in
     (if NUMERICAL_DERIVATIVE
      then
        Comp.when wantH1
          (db_dx_ <- Comp.call (numericalDerivative21 funPtr pose quadric
                                  (lit (1 # 1000000))) ;;
           assign_H1 db_dx_) ;;
        Comp.when wantH2
          (db_dq_ <- Comp.call (numericalDerivative22 funPtr pose quadric
                                  (lit (1 # 1000000))) ;;
           assign_H2 db_dq_)
      else
        (* combine partial derivatives *)
        Comp.when wantH1 (assign_H1 (mmul db_dC dC_dx)) ;;
        Comp.when wantH2 (assign_H2 (mmul db_dC dC_dq))) ;;
     Comp.ret error)
    (* handle projection failures *)
    is_QuadricProjectionException
    (fun _ =>
       let error := vscale (Ones 4) (lit 1000) in
       wantH1 <- Comp.gets (fun s => isSome (H1 s)) ;;
       wantH2 <- Comp.gets (fun s => isSome (H2 s)) ;;
       Comp.when wantH1 (assign_H1 (Zero 4 6)) ;;
       Comp.when wantH2 (assign_H2 (Zero 4 9)) ;;
       Comp.ret error).

(** [boost::bind(&BoundingBoxFactor::evaluateError, this, _1, _2,
    boost::none, boost::none)]: the same instance, no Jacobian asked. *)
Definition bound_evaluateError (self : BoundingBoxFactor)
  : Pose3 -> ConstrainedDualQuadric -> result (Vector R) :=
  fun pose quadric =>
    fst (evaluateError_with (fun _ _ => inr []) pose quadric
           (mkStore self None None)).

(** [BoundingBoxFactor::evaluateError(pose, quadric, H1, H2)] *)
Definition evaluateError (pose : Pose3) (quadric : ConstrainedDualQuadric)
  : Comp.M Store (Vector R) :=
  fun s => evaluateError_with (bound_evaluateError (this s)) pose quadric s.

(** [BoundingBoxFactor::evaluateH1(pose, quadric)] (lines 162-166): a
    local, empty [H1] is passed by reference, [boost::none] for [H2]. *)
Definition evaluateH1 (self : BoundingBoxFactor)
           (pose : Pose3) (quadric : ConstrainedDualQuadric)
  : result (Matrix R) * BoundingBoxFactor :=
  match evaluateError pose quadric (mkStore self (Some empty_Matrix) None) with
  | (inr _, s) => (inr (match H1 s with Some m => m | None => empty_Matrix end), this s)
  | (inl e, s) => (inl e, this s)
  end.

(** [BoundingBoxFactor::evaluateH2(pose, quadric)] (lines 169-173) *)
Definition evaluateH2 (self : BoundingBoxFactor)
           (pose : Pose3) (quadric : ConstrainedDualQuadric)
  : result (Matrix R) * BoundingBoxFactor :=
  match evaluateError pose quadric (mkStore self None (Some empty_Matrix)) with
  | (inr _, s) => (inr (match H2 s with Some m => m | None => empty_Matrix end), this s)
  | (inl e, s) => (inl e, this s)
  end.

(** [BoundingBoxFactor::equals(other, tol)] (lines 197-203) *)
Definition equals (self other : BoundingBoxFactor) (tol : R) : bool :=
  let equal :=
    box_equals (measured_ self) (measured_ other) tol
    && calibration_equals (calibration_ self) (calibration_ other) tol
    && noiseModel_equals (noiseModel self) (noiseModel other) tol
    && N.eqb (key1 self) (key1 other) && N.eqb (key2 self) (key2 other) in
  equal.
End Factor.

Arguments BoundingBoxFactor R {C}.
Arguments Store R {C}.

(* ===================================================================== *)
(** ** Exact arithmetic *)
(* ===================================================================== *)

(** Rationals as scalars: the arithmetic of the source without rounding. *)
#[global] Instance Scalar_Q : Scalar Q := {
  s_zero := 0;
  s_one  := 1;
  s_add  := Qplus;
  s_sub  := Qminus;
  s_mul  := Qmult;
  lit    := fun q => q
}.

(* ===================================================================== *)
(** ** Double precision *)
(* ===================================================================== *)

(** The scalars of the C++ code: IEEE 754 binary64.  A decimal literal is
    read as the correctly rounded quotient of its numerator and
    denominator. *)
Definition double_of_Z (z : Z) : float :=
  match z with
  | Z0 => 0%float
  | Zpos p => PrimFloat.of_uint63 (Uint63.of_Z (Zpos p))
  | Zneg p => PrimFloat.opp (PrimFloat.of_uint63 (Uint63.of_Z (Zpos p)))
  end.

Definition double_of_Q (q : Q) : float :=
  PrimFloat.div (double_of_Z (Qnum q)) (double_of_Z (Zpos (Qden q))).

#[global] Instance Scalar_double : Scalar float := {
  s_zero := 0%float;
  s_one  := 1%float;
  s_add  := PrimFloat.add;
  s_sub  := PrimFloat.sub;
  s_mul  := PrimFloat.mul;
  lit    := double_of_Q
}.

(** [a < b] on rationals, as a test. *)
Definition Qlt_bool (a b : Q) : bool := negb (Qle_bool b a).

(* ===================================================================== *)
(** ** The geometry behind the factor, after the specification *)
(* ===================================================================== *)

Module SpecModel.

Definition entry (m : Matrix Q) (i j : nat) : Q := nth j (nth i m []) 0.

(** Determinant of a 3x3 matrix, expanded along the first row. *)
Definition det3 (m : Matrix Q) : Q :=
  entry m 0 0 * (entry m 1 1 * entry m 2 2 - entry m 1 2 * entry m 2 1)
  - entry m 0 1 * (entry m 1 0 * entry m 2 2 - entry m 1 2 * entry m 2 0)
  + entry m 0 2 * (entry m 1 0 * entry m 2 1 - entry m 1 1 * entry m 2 0).

(** Modelled from the spec: the tangent-line conditions of
    [DualConic::bounds], which is declared at DualConic.h:67 and defined
    outside the sources.  Spec 4.2 finds the box edges "via the closed-form
    tangent-line conditions of a dual conic".  The vertical line x = x0 has
    the coordinates (1, 0, -x0) and is tangent to the dual conic C when
    C00 - 2 C02 x0 + C22 x0^2 = 0; likewise the horizontal line y = y0 with
    C11 and C12.  The two quadratic equations have real roots when their
    discriminants (here without the factor 4) are not negative. *)
Definition tangent_discriminant_x (c : DualConic Q) : Q :=
  let m := dC_ c in
  entry m 0 2 * entry m 0 2 - entry m 0 0 * entry m 2 2.

Definition tangent_discriminant_y (c : DualConic Q) : Q :=
  let m := dC_ c in
  entry m 1 2 * entry m 1 2 - entry m 1 1 * entry m 2 2.

Definition has_real_tangents (c : DualConic Q) : bool :=
  Qle_bool 0 (tangent_discriminant_x c) && Qle_bool 0 (tangent_discriminant_y c).

(** Modelled from the spec: the conics for which [DualConic::bounds] has a
    box.  Spec 7 names the failure "projected conic has no proper bounding
    box", spec 4.2 has [bounds] fail "if the conic is degenerate and bounds
    cannot be defined", and the glossary calls degenerate "a conic whose
    matrix is singular ... for which no finite bounding box is defined".  A
    proper box therefore asks for a matrix that is not singular and for
    real, finite roots of the two tangency equations.  The arithmetic is
    exact here, so singular is a determinant equal to zero. *)
Definition has_proper_box (c : DualConic Q) : bool :=
  negb (Qeq_bool (det3 (dC_ c)) 0)
  && negb (Qeq_bool (entry (dC_ c) 2 2) 0)
  && has_real_tangents c.

(** Two vectors whose entries differ by at most [tol]. *)
Fixpoint vclose (tol : Q) (a b : Vector Q) : bool :=
  match a, b with
  | [], [] => true
  | x :: a', y :: b' => Qle_bool (Qabs (x - y)) tol && vclose tol a' b'
  | _, _ => false
  end.

(** *** Poses, calibrations, quadrics *)

(** Modelled from the spec: GTSAM's [Pose3], "a 3D rigid transformation
    (rotation + translation)": a 3x3 rotation matrix and a 3-vector. *)
Record Pose3 : Type := mkPose3 {
  rotation : Matrix Q;
  translation : Vector Q
}.

(** A pose in the sense of spec 3: the rotation part is a 3x3 matrix that
    can be inverted, as every rotation matrix can, and the translation has
    three components. *)
Definition valid_pose (p : Pose3) : bool :=
  has_shape 3 3 (rotation p)
  && negb (Qeq_bool (det3 (rotation p)) 0)
  && Nat.eqb (length (translation p)) 3.

(** Modelled from the spec: GTSAM's [Cal3_S2], "focal lengths, skew,
    principal point", in the order of the constructor call at
    simpleExample.cpp:57. *)
Record Cal3_S2 : Type := mkCal3_S2 {
  fx : Q;
  fy : Q;
  skew : Q;
  u0 : Q;
  v0 : Q
}.

(** A calibration whose focal lengths are not zero. *)
Definition valid_calibration (cal : Cal3_S2) : bool :=
  negb (Qeq_bool (fx cal) 0) && negb (Qeq_bool (fy cal) 0).

(** The calibration matrix K. *)
Definition K (cal : Cal3_S2) : Matrix Q :=
  [[fx cal; skew cal; u0 cal];
   [0;      fy cal;   v0 cal];
   [0;      0;        1]].

(** Modelled from the spec: [ConstrainedDualQuadric] (not among the
    sources), "a pose (center + orientation, 6 DOF) and three positive
    radii". *)
Record ConstrainedDualQuadric : Type := mkConstrainedDualQuadric {
  pose_ : Pose3;
  radii_ : Vector Q
}.

(** "Invariant: radii must remain representable as positive real values":
    a pose and three radii, each greater than zero. *)
Definition valid_quadric (q : ConstrainedDualQuadric) : bool :=
  valid_pose (pose_ q)
  && Nat.eqb (length (radii_ q)) 3 && forallb (Qlt_bool 0) (radii_ q).

(** Append a column to a matrix. *)
Fixpoint append_column (m : Matrix Q) (v : Vector Q) : Matrix Q :=
  match m, v with
  | row :: m', x :: v' => (row ++ [x]) :: append_column m' v'
  | _, _ => []
  end.

(** [m * v] for a matrix and a vector *)
Definition mvec (m : Matrix Q) (v : Vector Q) : Vector Q :=
  map (fun row => dot row v) m.

(** The diagonal matrix of a vector. *)
Definition diag (v : Vector Q) : Matrix Q :=
  map (fun i => map (fun j => if Nat.eqb i j then nth i v 0 else 0)
                    (seq 0 (length v)))
      (seq 0 (length v)).

(** The 4x4 homogeneous matrix [R t; 0 1] of a pose. *)
Definition pose_matrix (p : Pose3) : Matrix Q :=
  append_column (rotation p) (translation p) ++ [[0; 0; 0; 1]].

(** The 3x4 matrix [R|t]^-1 = [R^T | -R^T t] that takes world points into
    the frame of the pose. *)
Definition inverse_3x4 (p : Pose3) : Matrix Q :=
  let Rt := transpose (rotation p) in
  append_column Rt (map Qopp (mvec Rt (translation p))).

(** Modelled from the spec: [ConstrainedDualQuadric::matrix] (spec 4.1,
    [toMatrix]): "Q* = diag(-1 diag(radii)^2, ... ) conjugated into the
    ellipsoid's pose frame".  The spec elides the trailing diagonal entry;
    with 1 the matrix is the dual of the ellipsoid (up to its sign, and a
    dual form is meant up to scale). *)
Definition toMatrix (q : ConstrainedDualQuadric) : Matrix Q :=
  let Z := pose_matrix (pose_ q) in
  let D := diag (map (fun r => - (r * r)) (radii_ q) ++ [1]) in
  mmul (mmul Z D) (transpose Z).

(** Modelled from the spec: the conic of [QuadricCamera::project] (spec
    4.3): "P = K [R|t]^-1 ... the projected dual conic is C* = P Q* P^T". *)
Definition projection_operator (pose : Pose3) (cal : Cal3_S2) : Matrix Q :=
  mmul (K cal) (inverse_3x4 pose).

Definition project_conic (q : ConstrainedDualQuadric) (pose : Pose3) (cal : Cal3_S2)
  : DualConic Q :=
  let P := projection_operator pose cal in
  mkDualConic (mmul (mmul P (toMatrix q)) (transpose P)).

End SpecModel.

(* ===================================================================== *)
(** ** The collaborators, after the specification *)
(* ===================================================================== *)

Module SpecCollab.
Import SpecModel.

(** Modelled from the spec: how the error kinds of spec 7 are thrown.  The
    kinds are conceptual; the factor names one exception class of the
    project, [QuadricProjectionException], and treats what [smartBounds]
    throws as a [std::runtime_error] ("smartBounds failed to extract
    extrema", line 69). *)
Definition DegenerateConic : exception :=
  QuadricProjectionException "DegenerateConic".
Definition ExtremaExtractionFailure : exception :=
  std_runtime_error "ExtremaExtractionFailure".

(** What the spec leaves open about the collaborators: the closed forms of
    the box and of the Jacobians, what the strict bounds extraction makes of
    a conic that has real extrema, GTSAM's numerical derivatives and the
    base class of the project's exception. *)
Record Unspecified : Type := mkUnspecified {
  bounds_closed_form : DualConic Q -> AlignedBox2 Q;
  bounds_jacobian : DualConic Q -> Matrix Q;
  smartBounds_impl : DualConic Q -> Cal3_S2 -> bool -> result (AlignedBox2 Q * Matrix Q);
  project_dC_dq : ConstrainedDualQuadric -> Pose3 -> Cal3_S2 -> Matrix Q;
  project_dC_dx : ConstrainedDualQuadric -> Pose3 -> Cal3_S2 -> Matrix Q;
  numerical21 : (Pose3 -> ConstrainedDualQuadric -> result (Vector Q)) ->
                Pose3 -> ConstrainedDualQuadric -> Q -> result (Matrix Q);
  numerical22 : (Pose3 -> ConstrainedDualQuadric -> result (Vector Q)) ->
                Pose3 -> ConstrainedDualQuadric -> Q -> result (Matrix Q);
  qpe_base : bool
}.

(** Modelled from the spec: [QuadricCamera::project] (spec 4.3).  "No
    geometric validity check is performed here; an ill-posed projection
    (camera coincident with or inside the ellipsoid) simply yields a Conic
    that downstream bounds-extraction may reject": the call always
    returns. *)
Definition spec_project (u : Unspecified)
           (q : ConstrainedDualQuadric) (pose : Pose3) (cal : Cal3_S2)
           (want_dC_dq want_dC_dx : bool)
  : result (DualConic Q * Matrix Q * Matrix Q) :=
  inr (project_conic q pose cal, project_dC_dq u q pose cal, project_dC_dx u q pose cal).

(** Modelled from the spec: [DualConic::bounds] (spec 4.2 and 7), declared
    at DualConic.h:67.  It fails with [DegenerateConic] when the "projected
    conic has no proper bounding box"; otherwise it returns the box of the
    closed form, which the spec does not write out. *)
Definition spec_bounds (u : Unspecified) (c : DualConic Q) (wantJacobian : bool)
  : result (AlignedBox2 Q * Matrix Q) :=
  if has_proper_box c
  then inr (bounds_closed_form u c, bounds_jacobian u c)
  else inl DegenerateConic.

(** Modelled from the spec: [DualConic::smartBounds] (spec 4.2), not among
    the sources.  It solves "the tangency polynomial for real extrema" and
    "fails with ExtremaExtractionFailure if no valid real extremum is found
    on a given edge"; what it makes of real extrema (visible branch, field
    of view) is left open. *)
Definition spec_smartBounds (u : Unspecified) (c : DualConic Q) (cal : Cal3_S2)
           (wantJacobian : bool)
  : result (AlignedBox2 Q * Matrix Q) :=
  if has_real_tangents c
  then smartBounds_impl u c cal wantJacobian
  else inl ExtremaExtractionFailure.

(** Stand-ins for [AlignedBox2::equals] and [Cal3_S2::equals]: every
    component is compared up to [tol], as GTSAM's [equals] do. *)
Definition spec_box_equals (a b : AlignedBox2 Q) (tol : Q) : bool :=
  vclose tol (vector a) (vector b).

Definition spec_calibration_equals (a b : Cal3_S2) (tol : Q) : bool :=
  vclose tol [fx a; fy a; skew a; u0 a; v0 a] [fx b; fy b; skew b; u0 b; v0 b].

(** A diagonal noise model is its vector of sigmas
    ([noiseModel::Diagonal::Sigmas], simpleExample.cpp:61). *)
Definition spec_noiseModel_equals (a b : Vector Q) (tol : Q) : bool :=
  vclose tol a b.

Definition collaborators (u : Unspecified) : Collaborators Q :=
  Build_Collaborators
    (Pose3 := SpecModel.Pose3)
    (ConstrainedDualQuadric := SpecModel.ConstrainedDualQuadric)
    (Cal3_S2 := SpecModel.Cal3_S2)
    (SharedNoiseModel := Vector Q)
    (spec_project u)
    (spec_bounds u)
    (spec_smartBounds u)
    (numerical21 u)
    (numerical22 u)
    spec_box_equals
    spec_calibration_equals
    spec_noiseModel_equals
    (qpe_base u).

(** *** A scene to run the factor on *)

Definition I3 : Matrix Q := [[1; 0; 0]; [0; 1; 0]; [0; 0; 1]].

(** [Cal3_S2(525.0, 525.0, 0.0, 320.0, 240.0)], simpleExample.cpp:57 *)
Definition example_calibration : Cal3_S2 := mkCal3_S2 525 525 0 320 240.

(** [ConstrainedDualQuadric(Pose3(), Vector3(1.,2.,3.))], simpleExample.cpp:73 *)
Definition example_quadric : ConstrainedDualQuadric :=
  mkConstrainedDualQuadric (mkPose3 I3 [0; 0; 0]) [1; 2; 3].

(** A camera placed at the centre of [example_quadric]. *)
Definition pose_at_centre : Pose3 := mkPose3 I3 [0; 0; 0].

(** A camera ten units behind the quadric, looking at it along its z axis. *)
Definition pose_outside : Pose3 := mkPose3 I3 [0; 0; -10].

(** An ellipsoid away from the origin, turned about its z axis by the angle
    of cosine 3/5, and a camera at its centre that looks along the world
    x axis. *)
Definition turned_quadric : ConstrainedDualQuadric :=
  mkConstrainedDualQuadric
    (mkPose3 [[3 # 5; (-4) # 5; 0]; [4 # 5; 3 # 5; 0]; [0; 0; 1]] [2; -1; 5])
    [1; 2; 3].
Definition pose_at_turned_centre : Pose3 :=
  mkPose3 [[0; 0; 1]; [-1; 0; 0]; [0; -1; 0]] [2; -1; 5].

(** The unit sphere and a camera on its surface: the projected conic is
    singular. *)
Definition unit_sphere : ConstrainedDualQuadric :=
  mkConstrainedDualQuadric (mkPose3 I3 [0; 0; 0]) [1; 1; 1].
Definition pose_on_surface : Pose3 := mkPose3 I3 [1; 0; 0].
Definition unit_calibration : Cal3_S2 := mkCal3_S2 1 1 0 0 0.

(** Stand-ins for the unspecified parts, used only to run the factor on
    the scenes of this file: the box collapsed onto the centre of the conic
    with a zero Jacobian, a strict extraction that accepts every conic with
    real extrema, zero projection Jacobians. *)
Definition centre_box (c : DualConic Q) : AlignedBox2 Q :=
  let m := dC_ c in
  mkAlignedBox2 (entry m 0 2 / entry m 2 2) (entry m 1 2 / entry m 2 2)
                (entry m 0 2 / entry m 2 2) (entry m 1 2 / entry m 2 2).

Definition example_unspecified : Unspecified := {|
  bounds_closed_form := centre_box;
  bounds_jacobian := fun _ => Zero 4 9;
  smartBounds_impl := fun c _ _ => inr (centre_box c, Zero 4 9);
  project_dC_dq := fun _ _ _ => Zero 9 9;
  project_dC_dx := fun _ _ _ => Zero 9 6;
  numerical21 := fun _ _ _ _ => inr (Zero 4 6);
  numerical22 := fun _ _ _ _ => inr (Zero 4 9);
  qpe_base := true
|}.

(** The matrix with [rows] rows and [cols] columns whose coefficient (i, j)
    is [f i j]. *)
Definition tabulate (rows cols : nat) (f : nat -> nat -> Z) : Matrix Q :=
  map (fun i => map (fun j => inject_Z (f i j)) (seq 0 cols)) (seq 0 rows).

(** Stand-ins with Jacobians that are not zero, to watch the products of
    the chain rule: [db_dC(i, k) = i + k + 1], [dC_dx(k, j) = k - 2 j] and
    [dC_dq(k, j) = k * j - 3]. *)
Definition sample_db_dC : Matrix Q :=
  tabulate 4 9 (fun i k => Z.of_nat i + Z.of_nat k + 1)%Z.
Definition sample_dC_dx : Matrix Q :=
  tabulate 9 6 (fun k j => Z.of_nat k - 2 * Z.of_nat j)%Z.
Definition sample_dC_dq : Matrix Q :=
  tabulate 9 9 (fun k j => Z.of_nat k * Z.of_nat j - 3)%Z.

Definition sample_jacobians : Unspecified := {|
  bounds_closed_form := centre_box;
  bounds_jacobian := fun _ => sample_db_dC;
  smartBounds_impl := fun c _ _ => inr (centre_box c, sample_db_dC);
  project_dC_dq := fun _ _ _ => sample_dC_dq;
  project_dC_dx := fun _ _ _ => sample_dC_dx;
  numerical21 := fun _ _ _ _ => inr (Zero 4 6);
  numerical22 := fun _ _ _ _ => inr (Zero 4 9);
  qpe_base := true
|}.

(** [BoundingBoxFactor(measured, calibration, poseKey, objectKey, model)]
    with sigmas [Vector4::Ones()*BOX_SD] (simpleExample.cpp:61, 101). *)
Definition example_factor (u : Unspecified) (measured : AlignedBox2 Q)
           (cal : Cal3_S2) (mode : ErrorType)
  : BoundingBoxFactor Q (C := collaborators u) :=
  mkBoundingBoxFactor (C := collaborators u)
    measured cal mode [3; 3; 3; 3] 0%N 1%N.

Definition example_box : AlignedBox2 Q := mkAlignedBox2 300 200 340 280.
End SpecCollab.

(* ===================================================================== *)
(** ** What a call of [evaluateError] meets *)
(* ===================================================================== *)

Section Outcomes.
Context {R : Type} {SR : Scalar R} {C : Collaborators R}.

(** The bounds extraction the mode of the factor selects (lines 61-66). *)
Definition extract_bounds (self : BoundingBoxFactor R) (c : DualConic R)
           (computeJacobians : bool) : result (AlignedBox2 R * Matrix R) :=
  match errorType_ self with
  | SIMPLE => bounds c computeJacobians
  | COMPLEX => smartBounds c (calibration_ self) computeJacobians
  end.

(** The exceptions of the bounds extraction that end in the handler of
    line 137: a [QuadricProjectionException] in both modes and, in the
    strict mode, whatever the inner handler of line 67 rethrows as one. *)
Definition caught_from_bounds (self : BoundingBoxFactor R) (e : exception) : bool :=
  match errorType_ self with
  | SIMPLE => is_QuadricProjectionException e
  | COMPLEX => is_QuadricProjectionException e
               || is_runtime_error qpe_derives_runtime_error e
  end.

(** The computation of the predicted box raises an error that the factor
    handles: the projection or the bounds extraction throws, and the
    thrown object is of a class named by a handler. *)
Definition projection_fails (self : BoundingBoxFactor R)
           (pose : Pose3) (quadric : ConstrainedDualQuadric)
           (wantH1 wantH2 : bool) : bool :=
  match project quadric pose (calibration_ self) wantH2 wantH1 with
  | inl e => is_QuadricProjectionException e
  | inr (c, _, _) =>
      match extract_bounds self c (wantH1 || wantH2) with
      | inl e => caught_from_bounds self e
      | inr _ => false
      end
  end.

(** The factor with another error mode and everything else kept. *)
Definition with_errorType (mode : ErrorType) (f : BoundingBoxFactor R)
  : BoundingBoxFactor R :=
  mkBoundingBoxFactor (measured_ f) (calibration_ f) mode
                      (noiseModel f) (key1 f) (key2 f).

(** The content of an output argument after a call ([None]: not passed). *)
Definition written (h : option (Matrix R)) (m : Matrix R) : option (Matrix R) :=
  match h with
  | Some _ => Some m
  | None => None
  end.
End Outcomes.

(* ===================================================================== *)
(** ** The overloads on [Values] and the measurements of the example *)
(* ===================================================================== *)

Section OnValues.
Context {R : Type} {SR : Scalar R} {C : Collaborators R}.

(** [f] on the value of a result, an exception passed on. *)
Definition result_map {A B : Type} (f : A -> B) (r : result A) : result B :=
  match r with
  | inl e => inl e
  | inr a => inr (f a)
  end.

(** What the example does to obtain a measurement (simpleExample.cpp:99-100):
    [QuadricCamera::project(quadric, pose, calibration)] followed by
    [conic.bounds()], no Jacobian asked of either. *)
Definition measure (quadric : ConstrainedDualQuadric) (pose : Pose3) (calibration : Cal3_S2)
  : result (AlignedBox2 R) :=
  match project quadric pose calibration false false with
  | inl e => inl e
  | inr (conic, _, _) => result_map fst (bounds conic false)
  end.

(** GTSAM's [Values], as far as the factor uses it: a finite map from keys
    to values, each a pose or a quadric. *)
Inductive Value : Type :=
| PoseValue (pose : Pose3)
| QuadricValue (quadric : ConstrainedDualQuadric).

Definition Values : Type := list (Key * Value).

Fixpoint lookup (j : Key) (x : Values) : option Value :=
  match x with
  | [] => None
  | (k, v) :: x' => if N.eqb j k then Some v else lookup j x'
  end.

(** [Values::exists(j)] *)
Definition Values_exists (j : Key) (x : Values) : bool := isSome (lookup j x).

(** [Values::insert(j, val)]: a key that is present already is an error. *)
Definition Values_insert (j : Key) (v : Value) (x : Values) : result Values :=
  if Values_exists j x
  then inl (std_exception "ValuesKeyAlreadyExists")
  else inr (x ++ [(j, v)]).

(** [Values::at<Pose3>(j)] and [Values::at<ConstrainedDualQuadric>(j)]: a
    missing key and a value of the other type are errors. *)
Definition at_Pose3 (x : Values) (j : Key) : result Pose3 :=
  match lookup j x with
  | None => inl (std_exception "ValuesKeyDoesNotExist")
  | Some (PoseValue pose) => inr pose
  | Some (QuadricValue _) => inl (std_exception "ValuesIncorrectType")
  end.

Definition at_ConstrainedDualQuadric (x : Values) (j : Key) : result ConstrainedDualQuadric :=
  match lookup j x with
  | None => inl (std_exception "ValuesKeyDoesNotExist")
  | Some (QuadricValue quadric) => inr quadric
  | Some (PoseValue _) => inl (std_exception "ValuesIncorrectType")
  end.

(** [poseKey()] and [objectKey()]: the keys of the two variables of a
    [NoiseModelFactor2<Pose3, ConstrainedDualQuadric>], in this order. *)
Definition poseKey (self : BoundingBoxFactor R) : Key := key1 self.
Definition objectKey (self : BoundingBoxFactor R) : Key := key2 self.

(** [BoundingBoxFactor::evaluateH1(const Values& x)] (lines 176-180) *)
Definition evaluateH1_Values (self : BoundingBoxFactor R) (x : Values)
  : result (Matrix R) * BoundingBoxFactor R :=
  match at_Pose3 x (poseKey self) with
  | inl e => (inl e, self)
  | inr pose =>
      match at_ConstrainedDualQuadric x (objectKey self) with
      | inl e => (inl e, self)
      | inr quadric => evaluateH1 self pose quadric
      end
  end.

(** [BoundingBoxFactor::evaluateH2(const Values& x)] (lines 183-187) *)
Definition evaluateH2_Values (self : BoundingBoxFactor R) (x : Values)
  : result (Matrix R) * BoundingBoxFactor R :=
  match at_Pose3 x (poseKey self) with
  | inl e => (inl e, self)
  | inr pose =>
      match at_ConstrainedDualQuadric x (objectKey self) with
      | inl e => (inl e, self)
      | inr quadric => evaluateH2 self pose quadric
      end
  end.
End OnValues.

(* ===================================================================== *)
(** ** The example program: estimate and factor graph *)
(* ===================================================================== *)

(** How a piece of the example ends: it returns, an exception leaves it, it
    reads a vector out of range (undefined behaviour), or it runs on past
    the steps it was given. *)
Inductive outcome (A : Type) : Type :=
| Returns (a : A)
| Throws (e : exception)
| Undefined
| Diverges.

Arguments Returns {A} a.
Arguments Throws {A} e.
Arguments Undefined {A}.
Arguments Diverges {A}.

Definition outcome_bind {A B : Type} (m : outcome A) (f : A -> outcome B) : outcome B :=
  match m with
  | Returns a => f a
  | Throws e => Throws e
  | Undefined => Undefined
  | Diverges => Diverges
  end.

Definition of_result {A : Type} (r : result A) : outcome A :=
  match r with
  | inl e => Throws e
  | inr a => Returns a
  end.

(** [i + 1] and [i++] on an [unsigned] (32 bits). *)
Definition unsigned_succ (i : N) : N := ((i + 1) mod 2 ^ 32)%N.

(** [v.size()] and [v.size() - 1] on [size_t] (64 bits): the difference
    wraps around for an empty vector. *)
Definition size {A : Type} (v : list A) : N := N.of_nat (length v).
Definition size_minus_1 {A : Type} (v : list A) : N :=
  ((size v + 2 ^ 64 - 1) mod 2 ^ 64)%N.

(** [v[i]]: no check, out of range is undefined behaviour. *)
Definition subscript {A : Type} (v : list A) (i : N) : outcome A :=
  match nth_error v (N.to_nat i) with
  | Some a => Returns a
  | None => Undefined
  end.

(** [for (unsigned i = start; i < bound; i++) body], at most [steps] tests
    of the condition. *)
Fixpoint for_unsigned {S : Type} (steps : nat) (i bound : N)
         (body : N -> S -> outcome S) (s : S) : outcome S :=
  match steps with
  | O => Diverges
  | Datatypes.S steps' =>
      if (i <? bound)%N
      then outcome_bind (body i s)
                        (fun s' => for_unsigned steps' (unsigned_succ i) bound body s')
      else Returns s
  end.

Section Example.
Context {R : Type} {SR : Scalar R} {C : Collaborators R}.

(** GTSAM's [Symbol(c, j)] as a key, [Pose3::between], [Pose3::compose], the
    pose [Pose3(Rot3().rodriguez(0.1,0.1,0.1), Point3(0.1,0.2,0.3))] of line
    80, and the error type a factor gets from the five-argument constructor
    of line 101. *)
Variable Symbol : ascii -> N -> Key.
Variable between : Pose3 -> Pose3 -> Pose3.
Variable compose : Pose3 -> Pose3 -> Pose3.
Variable perturbation : Pose3.
Variable errorType_default : ErrorType.

(** [Symbol] tells apart the characters and the indices an [unsigned] can
    hold. *)
Definition Symbol_injective : Prop :=
  forall c c' i i', (i < 2 ^ 32)%N -> (i' < 2 ^ 32)%N ->
                    Symbol c i = Symbol c' i' -> c = c' /\ i = i'.

(** The factors of the example: [BetweenFactor<Pose3>(key1, key2, measured)]
    and [BoundingBoxFactor]. *)
Inductive Factor : Type :=
| BetweenFactor (k1 k2 : Key) (measured : Pose3)
| BoxFactor (f : BoundingBoxFactor R).

Definition NonlinearFactorGraph : Type := list Factor.

(** [BoundingBoxFactor(measured, calibration, poseKey, objectKey, model)] *)
Definition new_BoundingBoxFactor (measured : AlignedBox2 R) (calibration : Cal3_S2)
           (poseKey objectKey : Key) (model : SharedNoiseModel) : BoundingBoxFactor R :=
  mkBoundingBoxFactor measured calibration errorType_default model poseKey objectKey.

(** Lines 77-82: add trajectory estimate. *)
Definition add_trajectory_estimate (trajectory : list Pose3) (initialEstimate : Values)
  : outcome Values :=
  for_unsigned (Datatypes.S (length trajectory)) 0 (size trajectory)
    (fun i estimate =>
       outcome_bind (subscript trajectory i) (fun pose =>
       let perturbedPose := compose pose perturbation in
       of_result (Values_insert (Symbol "x" i) (PoseValue perturbedPose) estimate)))
    initialEstimate.

(** Lines 85-87: add quadric estimate. *)
Definition add_quadric_estimate (quadrics : list ConstrainedDualQuadric)
           (initialEstimate : Values) : outcome Values :=
  for_unsigned (Datatypes.S (length quadrics)) 0 (size quadrics)
    (fun i estimate =>
       outcome_bind (subscript quadrics i) (fun quadric =>
       of_result (Values_insert (Symbol "q" i) (QuadricValue quadric) estimate)))
    initialEstimate.

(** Lines 90-94: add relative poses to graph as odometry. *)
Definition add_odometry (trajectory : list Pose3) (graph : NonlinearFactorGraph)
  : outcome NonlinearFactorGraph :=
  for_unsigned (Datatypes.S (length trajectory)) 0 (size_minus_1 trajectory)
    (fun i graph =>
       outcome_bind (subscript trajectory i) (fun a =>
       outcome_bind (subscript trajectory (unsigned_succ i)) (fun b =>
       let relativePose := between a b in
       Returns (graph ++ [BetweenFactor (Symbol "x" i) (Symbol "x" (unsigned_succ i))
                                        relativePose]))))
    graph.

(** Lines 97-104: reproject true quadrics into each true pose. *)
Definition add_box_factors (quadrics : list ConstrainedDualQuadric)
           (trajectory : list Pose3) (calibration : Cal3_S2)
           (boxNoiseModel : SharedNoiseModel) (graph : NonlinearFactorGraph)
  : outcome NonlinearFactorGraph :=
  for_unsigned (Datatypes.S (length quadrics)) 0 (size quadrics)
    (fun j graph =>
       for_unsigned (Datatypes.S (length trajectory)) 0 (size trajectory)
         (fun i graph =>
            outcome_bind (subscript quadrics j) (fun quadric =>
            outcome_bind (subscript trajectory i) (fun pose =>
            outcome_bind (of_result (measure quadric pose calibration)) (fun bounds =>
            let bbf := new_BoundingBoxFactor bounds calibration
                                             (Symbol "x" i) (Symbol "q" j) boxNoiseModel in
            Returns (graph ++ [BoxFactor bbf])))))
         graph)
    graph.

(** Lines 52-104 of [main]: the initial estimate and the graph that go to
    the optimizer, for a trajectory, quadrics, calibration and noise model. *)
Definition build_example (trajectory : list Pose3) (quadrics : list ConstrainedDualQuadric)
           (calibration : Cal3_S2) (boxNoiseModel : SharedNoiseModel)
  : outcome (NonlinearFactorGraph * Values) :=
  outcome_bind (add_trajectory_estimate trajectory []) (fun estimate =>
  outcome_bind (add_quadric_estimate quadrics estimate) (fun initialEstimate =>
  outcome_bind (add_odometry trajectory []) (fun graph =>
  outcome_bind (add_box_factors quadrics trajectory calibration boxNoiseModel graph)
               (fun graph => Returns (graph, initialEstimate))))).
End Example.

(* ===================================================================== *)
(** ** The scene of the example, in exact arithmetic *)
(* ===================================================================== *)

Module ExampleRun.
Import SpecModel SpecCollab.

(** GTSAM packs a [Symbol] into a key with the character above the 56 bits
    of the index. *)
Definition Symbol (c : ascii) (j : N) : Key := (N_of_ascii c * 2 ^ 56 + j)%N.

Fixpoint vadd (a b : Vector Q) : Vector Q :=
  match a, b with
  | x :: a', y :: b' => (x + y) :: vadd a' b'
  | _, _ => []
  end.

(** [Pose3::compose], [Pose3::inverse] and [Pose3::between] on a rotation
    matrix and a translation. *)
Definition compose (a b : Pose3) : Pose3 :=
  mkPose3 (mmul (rotation a) (rotation b))
          (vadd (mvec (rotation a) (translation b)) (translation a)).

Definition inverse (a : Pose3) : Pose3 :=
  let Rt := transpose (rotation a) in
  mkPose3 Rt (map Qopp (mvec Rt (translation a))).

Definition between (a b : Pose3) : Pose3 := compose (inverse a) b.

(** The perturbation of line 80 with its translation (0.1, 0.2, 0.3); the
    rotation [rodriguez(0.1,0.1,0.1)] is not rational and is left out. *)
Definition perturbation : Pose3 := mkPose3 I3 [1 # 10; 2 # 10; 3 # 10].

(** The key poses of lines 64-69: cameras at distance 10 on the x and y
    axes that look at the origin, z up. *)
Definition trajectory : list Pose3 :=
  [ mkPose3 [[0; 0; -1]; [1; 0; 0]; [0; -1; 0]] [10; 0; 0];
    mkPose3 [[1; 0; 0]; [0; 0; 1]; [0; -1; 0]] [0; -10; 0];
    mkPose3 [[0; 0; 1]; [-1; 0; 0]; [0; -1; 0]] [-10; 0; 0];
    mkPose3 [[-1; 0; 0]; [0; 0; -1]; [0; -1; 0]] [0; 10; 0];
    mkPose3 [[0; 0; -1]; [1; 0; 0]; [0; -1; 0]] [10; 0; 0] ].

(** The quadrics of lines 72-74. *)
Definition quadrics : list ConstrainedDualQuadric :=
  [ mkConstrainedDualQuadric (mkPose3 I3 [0; 0; 0]) [1; 2; 3];
    mkConstrainedDualQuadric (mkPose3 I3 [1 # 10; 1 # 10; 1 # 10]) [1; 2; 3] ].

(** [Vector4::Ones()*BOX_SD] *)
Definition boxNoiseModel : Vector Q := [3; 3; 3; 3].

(** A strict extraction that runs out of memory, for a run in which an
    exception meets no handler. *)
Definition out_of_memory : Unspecified :=
  mkUnspecified (bounds_closed_form example_unspecified)
                (bounds_jacobian example_unspecified)
                (fun _ _ _ => inl (std_exception "std::bad_alloc"))
                (project_dC_dq example_unspecified)
                (project_dC_dx example_unspecified)
                (numerical21 example_unspecified)
                (numerical22 example_unspecified)
                (qpe_base example_unspecified).

(** A factor measured from the truth: the first quadric seen from the
    first pose. *)
Definition true_factor : BoundingBoxFactor Q (C := collaborators example_unspecified) :=
  example_factor example_unspecified
    (centre_box (project_conic example_quadric pose_outside example_calibration))
    example_calibration SIMPLE.
End ExampleRun.

(* ===================================================================== *)
(** ** Properties of the linear algebra *)
(* ===================================================================== *)

Unset Implicit Arguments.

Section LinearAlgebraFacts.
Context {R : Type} {SR : Scalar R}.

Lemma Zero_shape (rows cols : nat) : has_shape rows cols (Zero (R := R) rows cols) = true.
Proof.
  unfold has_shape, Zero. rewrite repeat_length, Nat.eqb_refl. simpl.
  induction rows as [| n IH]; simpl; [reflexivity |].
  now rewrite repeat_length, Nat.eqb_refl.
Qed.

Lemma has_shape_length (rows cols : nat) (m : Matrix R) :
  has_shape rows cols m = true -> length m = rows.
Proof.
  unfold has_shape. intros Hs. apply andb_true_iff in Hs.
  now apply Nat.eqb_eq.
Qed.

Lemma has_shape_ncols (rows cols : nat) (m : Matrix R) :
  has_shape (S rows) cols m = true -> ncols m = cols.
Proof.
  unfold has_shape. destruct m as [| row m']; simpl; [discriminate |].
  intros Hs. apply andb_true_iff in Hs. destruct Hs as [_ Hs].
  apply andb_true_iff in Hs. now apply Nat.eqb_eq.
Qed.

(** The product of an r x (k+1) and a (k+1) x c matrix is r x c. *)
Lemma mmul_shape (r k c : nat) (a b : Matrix R) :
  has_shape r (S k) a = true -> has_shape (S k) c b = true ->
  has_shape r c (mmul a b) = true.
Proof.
  intros Ha Hb. unfold has_shape, mmul.
  apply andb_true_iff. split.
  - apply Nat.eqb_eq. rewrite length_map. exact (has_shape_length _ _ _ Ha).
  - apply forallb_forall. intros row Hin.
    apply in_map_iff in Hin. destruct Hin as [x [<- _]].
    apply Nat.eqb_eq. rewrite length_map, length_seq.
    exact (has_shape_ncols _ _ _ Hb).
Qed.

Lemma dot_sum_list (d : R) (a b : Vector R) :
  length a = length b ->
  dot a b = sum_list (map (fun k => s_mul (nth k a d) (nth k b d)) (seq 0 (length a))).
Proof.
  revert b. induction a as [| x a IH]; intros [| y b] Hl; try discriminate; [reflexivity |].
  injection Hl as Hl. cbn [dot length seq map sum_list nth]. f_equal.
  rewrite <- seq_shift, map_map. now apply IH.
Qed.

Lemma has_shape_row (rows cols : nat) (m : Matrix R) (i : nat) :
  has_shape rows cols m = true -> (i < rows)%nat -> length (nth i m []) = cols.
Proof.
  unfold has_shape. intros Hs Hi. apply andb_true_iff in Hs. destruct Hs as [Hl Hr].
  apply Nat.eqb_eq in Hl. rewrite forallb_forall in Hr.
  apply Nat.eqb_eq. apply Hr. apply nth_In.
  exact (eq_ind_r (fun x => (i < x)%nat) Hi Hl).
Qed.

(** Each coefficient of [mmul a b] is the sum of the products along the
    inner index. *)
Lemma mmul_coeff (r n c : nat) (a b : Matrix R) (i j : nat) :
  has_shape r (S n) a = true -> has_shape (S n) c b = true ->
  (i < r)%nat -> (j < c)%nat ->
  coeff (mmul a b) i j = product_coeff a b (S n) i j.
Proof.
  intros Ha Hb Hi Hj. unfold coeff at 1, mmul.
  pose proof (has_shape_length _ _ _ Ha) as Hla.
  pose proof (has_shape_length _ _ _ Hb) as Hlb.
  assert (Hi' : (i < length a)%nat) by (rewrite Hla; exact Hi).
  rewrite (nth_indep _ [] (map (fun j0 => dot [] (column j0 b)) (seq 0 (ncols b))))
    by (rewrite length_map; exact Hi').
  rewrite (map_nth (fun row => map (fun j0 => dot row (column j0 b)) (seq 0 (ncols b))) a [] i).
  rewrite (has_shape_ncols _ _ _ Hb).
  rewrite (nth_indep _ s_zero (dot (nth i a []) (column 0 b)))
    by (rewrite length_map, length_seq; exact Hj).
  rewrite (map_nth (fun j0 => dot (nth i a []) (column j0 b)) (seq 0 c) 0%nat j).
  rewrite seq_nth by exact Hj. cbn [Nat.add].
  pose proof (has_shape_row _ _ _ i Ha Hi) as Hrow.
  rewrite (dot_sum_list s_zero)
    by (unfold column; rewrite length_map; exact (eq_trans Hrow (eq_sym Hlb))).
  rewrite Hrow. unfold product_coeff. apply f_equal, map_ext_in.
  intros k Hk. apply in_seq in Hk. f_equal. unfold column, coeff.
  rewrite (nth_indep _ s_zero (nth j (@nil R) s_zero))
    by (rewrite length_map; exact (eq_ind_r (fun x => (k < x)%nat) (proj2 Hk) Hlb)).
  now rewrite (map_nth (fun row => nth j row s_zero) b [] k).
Qed.

(** Over nine inner indices [product_coeff] is this sum, whatever the
    scalars are. *)
Lemma product_coeff_9 (a b : Matrix R) (i j : nat) :
  product_coeff a b 9 i j
  = s_add (s_mul (coeff a i 0) (coeff b 0 j))
   (s_add (s_mul (coeff a i 1) (coeff b 1 j))
   (s_add (s_mul (coeff a i 2) (coeff b 2 j))
   (s_add (s_mul (coeff a i 3) (coeff b 3 j))
   (s_add (s_mul (coeff a i 4) (coeff b 4 j))
   (s_add (s_mul (coeff a i 5) (coeff b 5 j))
   (s_add (s_mul (coeff a i 6) (coeff b 6 j))
   (s_add (s_mul (coeff a i 7) (coeff b 7 j))
   (s_add (s_mul (coeff a i 8) (coeff b 8 j)) s_zero)))))))).
Proof. reflexivity. Qed.

Lemma vsub_vector (a b : AlignedBox2 R) :
  vsub (vector a) (vector b)
  = [s_sub (xmin a) (xmin b); s_sub (ymin a) (ymin b);
     s_sub (xmax a) (xmax b); s_sub (ymax a) (ymax b)].
Proof. reflexivity. Qed.
End LinearAlgebraFacts.

(* ===================================================================== *)
(** ** Properties of the factor *)
(* ===================================================================== *)

Section FactorProperties.
Context {R : Type} {SR : Scalar R} {C : Collaborators R}.

Ltac run_factor :=
  unfold evaluateError, evaluateError_with, Comp.try_catch, Comp.bind,
    Comp.gets, Comp.call, Comp.when, Comp.ret, Comp.throw,
    assign_H1, assign_H2, Comp.modify; simpl.

(** The three ways a call can end. *)

(** Both stages return: the residual is the difference of the two boxes
    and each Jacobian passed receives its product. *)
Lemma evaluateError_returns self pose quadric h1 h2 c dq dx box db :
  project quadric pose (calibration_ self) (isSome h2) (isSome h1) = inr (c, dq, dx) ->
  extract_bounds self c (isSome h1 || isSome h2) = inr (box, db) ->
  evaluateError pose quadric (mkStore self h1 h2)
  = (inr (vsub (vector box) (vector (measured_ self))),
     mkStore self (written h1 (mmul db dx)) (written h2 (mmul db dq))).
Proof.
  intros Hp Hb. unfold extract_bounds in Hb. run_factor.
  rewrite Hp. simpl. rewrite andb_true_r.
  destruct (errorType_ self); rewrite Hb; simpl; destruct h1, h2; reflexivity.
Qed.

(** A stage throws what a handler catches: the fallback of lines 142-144. *)
Lemma evaluateError_falls_back self pose quadric h1 h2 :
  projection_fails self pose quadric (isSome h1) (isSome h2) = true ->
  evaluateError pose quadric (mkStore self h1 h2)
  = (inr (vscale (Ones 4) (lit 1000)),
     mkStore self (written h1 (Zero 4 6)) (written h2 (Zero 4 9))).
Proof.
  intros Hf. unfold projection_fails, extract_bounds, caught_from_bounds in Hf.
  run_factor.
  destruct (project quadric pose (calibration_ self) (isSome h2) (isSome h1))
    as [e | [[c dq] dx]].
  - rewrite Hf. destruct h1, h2; reflexivity.
  - simpl. rewrite andb_true_r. destruct (errorType_ self).
    + destruct (bounds c (isSome h1 || isSome h2)) as [e | [b db]]; [| discriminate].
      simpl. rewrite Hf. destruct h1, h2; reflexivity.
    + destruct (smartBounds c (calibration_ self) (isSome h1 || isSome h2))
        as [e | [b db]]; [| discriminate].
      simpl. destruct (is_runtime_error qpe_derives_runtime_error e) eqn:Hr; simpl.
      * destruct h1, h2; reflexivity.
      * rewrite orb_false_r in Hf. rewrite Hf. destruct h1, h2; reflexivity.
Qed.

(** A stage throws something else: the exception leaves the call and
    nothing has been written. *)
Lemma evaluateError_escapes self pose quadric h1 h2 :
  projection_fails self pose quadric (isSome h1) (isSome h2) = false ->
  (forall c dq dx,
      project quadric pose (calibration_ self) (isSome h2) (isSome h1) = inr (c, dq, dx) ->
      exists e, extract_bounds self c (isSome h1 || isSome h2) = inl e) ->
  exists e, evaluateError pose quadric (mkStore self h1 h2) = (inl e, mkStore self h1 h2).
Proof.
  intros Hf Hthrows. unfold projection_fails, extract_bounds, caught_from_bounds in *.
  run_factor.
  destruct (project quadric pose (calibration_ self) (isSome h2) (isSome h1))
    as [e | [[c dq] dx]].
  - rewrite Hf. now exists e.
  - destruct (Hthrows c dq dx eq_refl) as [e He]. simpl. rewrite andb_true_r.
    destruct (errorType_ self); rewrite He in *; simpl.
    + rewrite Hf. now exists e.
    + apply orb_false_iff in Hf. destruct Hf as [Hq Hr]. rewrite Hr, Hq. now exists e.
Qed.

(** Every call ends in one of the three ways, and in each the instance is
    the one the call started with. *)
Lemma evaluateError_cases pose quadric (s : Store R) :
  (exists r m1 m2, evaluateError pose quadric s
                   = (inr r, mkStore (this s) (written (H1 s) m1) (written (H2 s) m2)))
  \/ (exists e, evaluateError pose quadric s = (inl e, s)).
Proof.
  destruct s as [self h1 h2]. simpl.
  destruct (projection_fails self pose quadric (isSome h1) (isSome h2)) eqn:Hf.
  - left. rewrite (evaluateError_falls_back _ _ _ _ _ Hf). eauto.
  - destruct (project quadric pose (calibration_ self) (isSome h2) (isSome h1))
      as [e | [[c dq] dx]] eqn:Hp.
    + right. apply evaluateError_escapes; [exact Hf |]. intros c dq dx Hp'.
      rewrite Hp in Hp'. discriminate.
    + destruct (extract_bounds self c (isSome h1 || isSome h2)) as [e | [b db]] eqn:Hb.
      * right. apply evaluateError_escapes; [exact Hf |]. intros c' dq' dx' Hp'.
        rewrite Hp in Hp'. injection Hp' as <- <- <-. now exists e.
      * left. rewrite (evaluateError_returns _ _ _ _ _ _ _ _ _ _ Hp Hb). eauto.
Qed.
End FactorProperties.

(* ===================================================================== *)
(** ** The contract of the factor *)
(* ===================================================================== *)

Section FactorContract.
Context {R : Type} {SR : Scalar R} {C : Collaborators R}.


(** C2.  Residual.  When the projection and the bounds extraction of the
    mode return, the call returns the difference predicted box minus
    measured box, component by component, in the order xmin, ymin, xmax,
    ymax. *)
Theorem evaluateError_residual self pose quadric h1 h2 c dq dx box db :
  project quadric pose (calibration_ self) (isSome h2) (isSome h1) = inr (c, dq, dx) ->
  extract_bounds self c (isSome h1 || isSome h2) = inr (box, db) ->
  fst (evaluateError pose quadric (mkStore self h1 h2))
  = inr [s_sub (xmin box) (xmin (measured_ self));
         s_sub (ymin box) (ymin (measured_ self));
         s_sub (xmax box) (xmax (measured_ self));
         s_sub (ymax box) (ymax (measured_ self))].
Proof.
  intros Hp Hb.
  now rewrite (evaluateError_returns _ _ _ _ _ _ _ _ _ _ Hp Hb).
Qed.

(** C3.  Chain rule.  On a successful evaluation, [db_dC] being the 4x9
    Jacobian that the bounds extraction of the mode returns and [dC_dx],
    [dC_dq] the 9x6 and 9x9 Jacobians that the projection returns (the
    sizes are those of the buffers declared at lines 44 and 59): a pose
    Jacobian that was asked for is a 4x6 matrix whose coefficient (i, j) is
    the sum over k = 0..8 of [db_dC(i, k) * dC_dx(k, j)], and a quadric
    Jacobian that was asked for is a 4x9 matrix whose coefficient (i, j) is
    the sum over k = 0..8 of [db_dC(i, k) * dC_dq(k, j)].  The sum is
    written out term by term, with the scalar operations alone. *)
Theorem evaluateError_chain_rule self pose quadric h1 h2 c dC_dq dC_dx box db_dC :
  project quadric pose (calibration_ self) (isSome h2) (isSome h1)
  = inr (c, dC_dq, dC_dx) ->
  extract_bounds self c (isSome h1 || isSome h2) = inr (box, db_dC) ->
  has_shape 4 9 db_dC = true ->
  let s := snd (evaluateError pose quadric (mkStore self h1 h2)) in
  let sum9 (f : nat -> R) : R :=
    s_add (f 0%nat) (s_add (f 1%nat) (s_add (f 2%nat) (s_add (f 3%nat)
   (s_add (f 4%nat) (s_add (f 5%nat) (s_add (f 6%nat) (s_add (f 7%nat)
   (s_add (f 8%nat) s_zero)))))))) in
  (isSome h1 = true -> has_shape 9 6 dC_dx = true ->
   exists m, H1 s = Some m /\ has_shape 4 6 m = true
             /\ forall i j, (i < 4)%nat -> (j < 6)%nat ->
                  nth j (nth i m []) s_zero
                  = sum9 (fun k => s_mul (nth k (nth i db_dC []) s_zero)
                                         (nth j (nth k dC_dx []) s_zero)))
  /\ (isSome h2 = true -> has_shape 9 9 dC_dq = true ->
      exists m, H2 s = Some m /\ has_shape 4 9 m = true
                /\ forall i j, (i < 4)%nat -> (j < 9)%nat ->
                     nth j (nth i m []) s_zero
                     = sum9 (fun k => s_mul (nth k (nth i db_dC []) s_zero)
                                            (nth j (nth k dC_dq []) s_zero))).
Proof.
  intros Hp Hb Hdb s sum9. subst s.
  rewrite (evaluateError_returns _ _ _ _ _ _ _ _ _ _ Hp Hb). simpl.
  split.
  - intros Hh1 Hdx. destruct h1 as [m0 |]; [| discriminate].
    exists (mmul db_dC dC_dx). split; [reflexivity |].
    split; [exact (mmul_shape _ _ _ _ _ Hdb Hdx) |].
    intros i j Hi Hj.
    exact (eq_trans (mmul_coeff 4 8 6 db_dC dC_dx i j Hdb Hdx Hi Hj)
                    (product_coeff_9 db_dC dC_dx i j)).
  - intros Hh2 Hdq. destruct h2 as [m0 |]; [| discriminate].
    exists (mmul db_dC dC_dq). split; [reflexivity |].
    split; [exact (mmul_shape _ _ _ _ _ Hdb Hdq) |].
    intros i j Hi Hj.
    exact (eq_trans (mmul_coeff 4 8 9 db_dC dC_dq i j Hdb Hdq Hi Hj)
                    (product_coeff_9 db_dC dC_dq i j)).
Qed.

(** C8.  Frame.  Whatever the inputs and however the call ends - with the
    residual, with the fallback or with an exception that escapes - the
    instance after [evaluateError] is the instance before it: measured
    box, calibration, error mode, noise model and keys.  The same holds
    for [evaluateH1] and [evaluateH2].  The store of a call holds nothing
    but the instance and the two output arguments. *)
Theorem evaluateError_frame pose quadric (s : Store R) :
  this (snd (evaluateError pose quadric s)) = this s
  /\ snd (evaluateH1 (this s) pose quadric) = this s
  /\ snd (evaluateH2 (this s) pose quadric) = this s.
Proof.
  repeat split.
  - destruct (evaluateError_cases pose quadric s) as [[r [m1 [m2 E]]] | [e E]];
      now rewrite E.
  - unfold evaluateH1.
    destruct (evaluateError_cases pose quadric
                (mkStore (this s) (Some empty_Matrix) None))
      as [[r [m1 [m2 E]]] | [e E]]; now rewrite E.
  - unfold evaluateH2.
    destruct (evaluateError_cases pose quadric
                (mkStore (this s) None (Some empty_Matrix)))
      as [[r [m1 [m2 E]]] | [e E]]; now rewrite E.
Qed.


(** C10.  [equals] compares the measured box, the calibration, the noise
    model and the two keys, and nothing else: its answer is the
    conjunction of these five tests, it does not change when the error
    mode of either factor changes, and a factor that equals itself equals
    its copy in the other error mode. *)
Theorem equals_ignores_errorType (f g : BoundingBoxFactor R) (tol : R)
        (m1 m2 : ErrorType) :
  equals f f tol = true ->
  equals f (with_errorType m1 f) tol = true
  /\ equals (with_errorType m1 f) (with_errorType m2 g) tol = equals f g tol
  /\ (equals f g tol = true <->
      box_equals (measured_ f) (measured_ g) tol = true
      /\ calibration_equals (calibration_ f) (calibration_ g) tol = true
      /\ noiseModel_equals (noiseModel f) (noiseModel g) tol = true
      /\ key1 f = key1 g /\ key2 f = key2 g).
Proof.
  intros Hself. split; [exact Hself | split; [reflexivity |]].
  unfold equals. rewrite !andb_true_iff, !N.eqb_eq. tauto.
Qed.
End FactorContract.

(* ===================================================================== *)
(** ** A camera at the centre of the ellipsoid *)
(* ===================================================================== *)

Module CameraAtCentre.
Import SpecModel SpecCollab.

Lemma shape33 (m : Matrix Q) :
  has_shape 3 3 m = true ->
  exists a b c d e f g h i, m = [[a; b; c]; [d; e; f]; [g; h; i]].
Proof.
  unfold has_shape. intros Hs. apply andb_true_iff in Hs. destruct Hs as [Hl Hr].
  destruct m as [| r1 [| r2 [| r3 [| r4 m]]]]; try discriminate.
  simpl in Hr. rewrite !andb_true_iff, !Nat.eqb_eq in Hr.
  destruct Hr as (H1 & H2 & H3 & _).
  destruct r1 as [| a [| b [| c [| ? ?]]]]; try discriminate.
  destruct r2 as [| d [| e [| f [| ? ?]]]]; try discriminate.
  destruct r3 as [| g [| h [| i [| ? ?]]]]; try discriminate.
  now exists a, b, c, d, e, f, g, h, i.
Qed.

Lemma length3 (v : Vector Q) :
  Nat.eqb (length v) 3 = true -> exists a b c, v = [a; b; c].
Proof.
  destruct v as [| a [| b [| c [| ? ?]]]]; try discriminate.
  now exists a, b, c.
Qed.

Lemma Qlt_bool_iff (a b : Q) : Qlt_bool a b = true <-> a < b.
Proof.
  unfold Qlt_bool. rewrite negb_true_iff. split.
  - intros Hf. apply Qnot_le_lt. intros Hle. apply Qle_bool_iff in Hle. congruence.
  - intros Hlt. destruct (Qle_bool b a) eqn:E; [| reflexivity].
    apply Qle_bool_iff in E. lra.
Qed.

Lemma Qle_bool_false_iff (a b : Q) : Qle_bool a b = false <-> b < a.
Proof.
  split.
  - intros Hf. apply Qnot_le_lt. intros Hle. apply Qle_bool_iff in Hle. congruence.
  - intros Hlt. destruct (Qle_bool a b) eqn:E; [| reflexivity].
    apply Qle_bool_iff in E. lra.
Qed.

Lemma not_Qeq_bool (x : Q) : negb (Qeq_bool x 0) = true -> ~ x == 0.
Proof.
  rewrite negb_true_iff. intros Hf Hx. apply Qeq_bool_iff in Hx. congruence.
Qed.

(** Lagrange's identity for two vectors of three components: the square of
    the scalar product minus the product of the squared norms is minus the
    squared norm of the vector product. *)
Lemma lagrange (x1 x2 x3 y1 y2 y3 : Q) :
  (x1 * y1 + x2 * y2 + x3 * y3) * (x1 * y1 + x2 * y2 + x3 * y3)
  - (x1 * x1 + x2 * x2 + x3 * x3) * (y1 * y1 + y2 * y2 + y3 * y3)
  == - ((x2 * y3 - x3 * y2) * (x2 * y3 - x3 * y2)
        + (x3 * y1 - x1 * y3) * (x3 * y1 - x1 * y3)
        + (x1 * y2 - x2 * y1) * (x1 * y2 - x2 * y1)).
Proof. ring. Qed.

(** A vector with a non-zero scalar product against some vector has a
    positive squared norm. *)
Lemma sum_squares_pos (x y z a b c : Q) :
  ~ a * x + b * y + c * z == 0 -> 0 < x * x + y * y + z * z.
Proof.
  intros Hn.
  destruct (Qlt_le_dec 0 (x * x + y * y + z * z)) as [Hp | Hle]; [exact Hp |].
  exfalso. apply Hn.
  assert (Hx : x == 0) by nra.
  assert (Hy : y == 0) by nra.
  assert (Hz : z == 0) by nra.
  rewrite Hx, Hy, Hz. ring.
Qed.

(** The projected conic, camera and ellipsoid sharing the point
    (t1, t2, t3).  With A the transposed camera rotation times the rotation
    of the ellipsoid and b1, b2, b3 the rows of
    [[fx; s; u0]; [0; 1; 0]; [0; 0; 1]] A diag(r1, r2, r3), the entries
    (0,0), (0,2) and (2,2) of the conic are minus the scalar products
    b1.b1, b1.b3 and b3.b3: the translation has cancelled. *)
Section Centre.
Variables c11 c12 c13 c21 c22 c23 c31 c32 c33 : Q.
Variables q11 q12 q13 q21 q22 q23 q31 q32 q33 : Q.
Variables t1 t2 t3 r1 r2 r3 fx fy s u0 v0 : Q.

Let Rc := [[c11; c12; c13]; [c21; c22; c23]; [c31; c32; c33]].
Let Rq := [[q11; q12; q13]; [q21; q22; q23]; [q31; q32; q33]].
Let pose := mkPose3 Rc [t1; t2; t3].
Let quadric := mkConstrainedDualQuadric (mkPose3 Rq [t1; t2; t3]) [r1; r2; r3].
Let cal := mkCal3_S2 fx fy s u0 v0.
Let A (i j : nat) : Q :=
  entry Rc 0 i * entry Rq 0 j + entry Rc 1 i * entry Rq 1 j + entry Rc 2 i * entry Rq 2 j.
Let r (j : nat) : Q := nth j [r1; r2; r3] 0.
Let b1 (j : nat) : Q := (fx * A 0 j + s * A 1 j + u0 * A 2 j) * r j.
Let b2 (j : nat) : Q := A 1 j * r j.
Let b3 (j : nat) : Q := A 2 j * r j.
Let gram (x y : nat -> Q) : Q :=
  x 0%nat * y 0%nat + x 1%nat * y 1%nat + x 2%nat * y 2%nat.

Ltac expand :=
  cbv [project_conic projection_operator toMatrix pose_matrix inverse_3x4 K diag
       mmul transpose column ncols mvec append_column dot map seq length nth app
       det3 entry dC_ rotation translation pose_ radii_ Nat.eqb
       s_add s_mul s_zero Scalar_Q SpecModel.fx SpecModel.fy skew
       SpecModel.u0 SpecModel.v0 pose quadric cal Rc Rq A r b1 b2 b3 gram].

Lemma conic_00 : entry (dC_ (project_conic quadric pose cal)) 0 0 == - gram b1 b1.
Proof. expand. ring. Qed.

Lemma conic_02 : entry (dC_ (project_conic quadric pose cal)) 0 2 == - gram b1 b3.
Proof. expand. ring. Qed.

Lemma conic_22 : entry (dC_ (project_conic quadric pose cal)) 2 2 == - gram b3 b3.
Proof. expand. ring. Qed.

(** The triple product of b1, b2, b3 is the determinant of the product of
    the four matrices. *)
Lemma volume :
  b2 0%nat * (b1 1%nat * b3 2%nat - b1 2%nat * b3 1%nat)
  + b2 1%nat * (b1 2%nat * b3 0%nat - b1 0%nat * b3 2%nat)
  + b2 2%nat * (b1 0%nat * b3 1%nat - b1 1%nat * b3 0%nat)
  == - (fx * det3 Rc * det3 Rq * (r1 * r2 * r3)).
Proof. expand. ring. Qed.

(** No vertical line is tangent to the projected conic. *)
Lemma discriminant_at_centre :
  ~ fx == 0 -> ~ det3 Rc == 0 -> ~ det3 Rq == 0 ->
  ~ r1 == 0 -> ~ r2 == 0 -> ~ r3 == 0 ->
  tangent_discriminant_x (project_conic quadric pose cal) < 0.
Proof.
  intros Hfx Hc Hq H1 H2 H3.
  unfold tangent_discriminant_x. cbv zeta.
  rewrite conic_00, conic_02, conic_22.
  setoid_replace (- gram b1 b3 * - gram b1 b3 - - gram b1 b1 * - gram b3 b3)
    with (gram b1 b3 * gram b1 b3 - gram b1 b1 * gram b3 b3) by ring.
  unfold gram. rewrite lagrange.
  assert (Hne : ~ fx * det3 Rc * det3 Rq * (r1 * r2 * r3) == 0).
  { intros Hz.
    apply Qmult_integral in Hz. destruct Hz as [Hz | Hz].
    - apply Qmult_integral in Hz. destruct Hz as [Hz | Hz]; [| tauto].
      apply Qmult_integral in Hz. tauto.
    - apply Qmult_integral in Hz. destruct Hz as [Hz | Hz]; [| tauto].
      apply Qmult_integral in Hz. tauto. }
  assert (Hp : 0 < (b1 1%nat * b3 2%nat - b1 2%nat * b3 1%nat)
                   * (b1 1%nat * b3 2%nat - b1 2%nat * b3 1%nat)
                 + (b1 2%nat * b3 0%nat - b1 0%nat * b3 2%nat)
                   * (b1 2%nat * b3 0%nat - b1 0%nat * b3 2%nat)
                 + (b1 0%nat * b3 1%nat - b1 1%nat * b3 0%nat)
                   * (b1 0%nat * b3 1%nat - b1 1%nat * b3 0%nat)).
  { apply (sum_squares_pos _ _ _ (b2 0%nat) (b2 1%nat) (b2 2%nat)).
    rewrite volume. intros Hz. apply Hne.
    setoid_replace (fx * det3 Rc * det3 Rq * (r1 * r2 * r3))
      with (- - (fx * det3 Rc * det3 Rq * (r1 * r2 * r3))) by ring.
    rewrite Hz. ring. }
  lra.
Qed.
End Centre.

(** With the camera at the centre of a valid ellipsoid the projected conic
    has no real vertical tangent, whatever the orientations, the radii and
    the calibration are. *)
Lemma no_real_tangents_at_centre (pose : Pose3) (quadric : ConstrainedDualQuadric)
      (cal : Cal3_S2) :
  valid_quadric quadric = true ->
  valid_pose pose = true ->
  valid_calibration cal = true ->
  translation pose = translation (pose_ quadric) ->
  has_real_tangents (project_conic quadric pose cal) = false.
Proof.
  intros Hq Hp Hcal Ht.
  destruct pose as [Rc tc], quadric as [[Rq tq] rad], cal as [fx fy s u0 v0].
  unfold valid_quadric, valid_pose, valid_calibration in Hq, Hp, Hcal.
  cbn [rotation translation pose_ radii_ SpecModel.fx SpecModel.fy] in Hq, Hp, Hcal, Ht.
  rewrite !andb_true_iff in Hq. rewrite !andb_true_iff in Hp.
  rewrite !andb_true_iff in Hcal.
  destruct Hq as [[[[Hsq Hdq] Hlq] Hlr] Hpos].
  destruct Hp as [[Hsc Hdc] Hlc].
  destruct Hcal as [Hfx _].
  destruct (shape33 Rc Hsc) as (c11 & c12 & c13 & c21 & c22 & c23 & c31 & c32 & c33 & ->).
  destruct (shape33 Rq Hsq) as (q11 & q12 & q13 & q21 & q22 & q23 & q31 & q32 & q33 & ->).
  destruct (length3 tc Hlc) as (t1 & t2 & t3 & ->).
  destruct (length3 rad Hlr) as (r1 & r2 & r3 & ->).
  subst tq.
  cbn [forallb] in Hpos. rewrite !andb_true_iff, !Qlt_bool_iff in Hpos.
  destruct Hpos as (Hr1 & Hr2 & Hr3 & _).
  apply not_Qeq_bool in Hdq, Hdc, Hfx.
  unfold has_real_tangents. apply andb_false_iff. left.
  apply Qle_bool_false_iff.
  apply discriminant_at_centre; try assumption; lra.
Qed.

End CameraAtCentre.

(* ===================================================================== *)
(** ** The factor on the example scene *)
(* ===================================================================== *)

Module Examples.
Import SpecModel SpecCollab.

(** In double precision [Vector4::Ones()*1000.0] is the vector of four
    1000.0: the arithmetic the failure policy asks for. *)
Example double_fallback_vector :
  s_mul (R := float) s_one (lit 1000) = lit 1000
  /\ vscale (R := float) (Ones 4) (lit 1000)
     = [1000%float; 1000%float; 1000%float; 1000%float].
Proof. split; reflexivity. Qed.

(** The product of two 2x2 matrices. *)
Example mmul_2x2 :
  mmul (R := Q) [[1; 2]; [3; 4]] [[5; 6]; [7; 8]] = [[19; 22]; [43; 50]].
Proof. reflexivity. Qed.


(** The example ellipsoid seen from outside, simple mode. *)
Lemma evaluateError_residual_witness :
  let u := example_unspecified in
  let self := example_factor u example_box example_calibration SIMPLE in
  fst (evaluateError (C := collaborators u) pose_outside example_quadric
         (mkStore self None None))
  = inr [1820 # 91; 3640 # 91; -1820 # 91; -3640 # 91].
Proof.
  intros u self.
  set (c := project_conic example_quadric pose_outside example_calibration).
  refine (evaluateError_residual (C := collaborators u)
            self pose_outside example_quadric None None
            c (Zero 9 9) (Zero 9 6) (centre_box c) (Zero 4 9) _ _).
  - reflexivity.
  - vm_compute. reflexivity.
Defined.

(** The example ellipsoid seen from outside, with Jacobians that are not
    zero: [db_dC(i, k) = i + k + 1], [dC_dx(k, j) = k - 2 j] and
    [dC_dq(k, j) = k j - 3].  The coefficient (0, 0) of H1 is the sum of
    (k + 1) k over k = 0..8, which is 240, and so on; none is the zero of
    the fallback. *)
Lemma evaluateError_chain_rule_witness :
  let u := sample_jacobians in
  let self := example_factor u example_box example_calibration SIMPLE in
  let s := snd (evaluateError (C := collaborators u) pose_outside example_quadric
                  (mkStore self (Some empty_Matrix) (Some empty_Matrix))) in
  exists m1 m2,
    H1 s = Some m1 /\ H2 s = Some m2
    /\ has_shape 4 6 m1 = true /\ has_shape 4 9 m2 = true
    /\ nth 0 (nth 0 m1 []) 0 = 240
    /\ nth 5 (nth 3 m1 []) 0 = -372
    /\ nth 0 (nth 0 m2 []) 0 = -135
    /\ nth 8 (nth 3 m2 []) 0 = 2568.
Proof.
  intros u self.
  set (c := project_conic example_quadric pose_outside example_calibration).
  assert (Hp : project (Collaborators := collaborators u) example_quadric pose_outside
                 (calibration_ self) true true
               = inr (c, sample_dC_dq, sample_dC_dx)) by reflexivity.
  assert (Hb : extract_bounds (C := collaborators u) self c true
               = inr (centre_box c, sample_db_dC)) by (vm_compute; reflexivity).
  destruct (evaluateError_chain_rule (C := collaborators u)
              self pose_outside example_quadric
              (Some empty_Matrix) (Some empty_Matrix)
              c sample_dC_dq sample_dC_dx (centre_box c) sample_db_dC Hp Hb eq_refl)
    as (E1 & E2).
  destruct (E1 eq_refl eq_refl) as (m1 & Hm1 & Hs1 & Hc1).
  destruct (E2 eq_refl eq_refl) as (m2 & Hm2 & Hs2 & Hc2).
  exists m1, m2.
  exact (conj Hm1 (conj Hm2 (conj Hs1 (conj Hs2
          (conj (Hc1 0%nat 0%nat ltac:(lia) ltac:(lia))
          (conj (Hc1 3%nat 5%nat ltac:(lia) ltac:(lia))
          (conj (Hc2 0%nat 0%nat ltac:(lia) ltac:(lia))
                (Hc2 3%nat 8%nat ltac:(lia) ltac:(lia))))))))).
Defined.


Lemma equals_ignores_errorType_witness :
  let u := example_unspecified in
  let f := example_factor u example_box example_calibration SIMPLE in
  let g := example_factor u example_box example_calibration COMPLEX in
  equals (C := collaborators u) f f (1 # 1000000000) = true
  /\ equals (C := collaborators u) f g (1 # 1000000000) = true.
Proof.
  intros u f g.
  assert (Hself : equals (C := collaborators u) f f (1 # 1000000000) = true)
    by (vm_compute; reflexivity).
  split; [exact Hself |].
  exact (proj1 (equals_ignores_errorType (C := collaborators u)
                  f g (1 # 1000000000) COMPLEX SIMPLE Hself)).
Defined.

End Examples.

(* ===================================================================== *)
(** ** Further properties of [evaluateError] *)
(* ===================================================================== *)

Section FactorRuns.
Context {R : Type} {SR : Scalar R} {C : Collaborators R}.

(** What the inner handler of line 67 makes of an exception of the bounds
    extraction before the outer handler sees it. *)
Lemma evaluateError_run self pose quadric h1 h2 :
  let s := mkStore self h1 h2 in
  let fallback :=
    (inr (vscale (Ones 4) (lit 1000)),
     mkStore self (written h1 (Zero 4 6)) (written h2 (Zero 4 9))) in
  evaluateError pose quadric s
  = match project quadric pose (calibration_ self) (isSome h2) (isSome h1) with
    | inl e => if is_QuadricProjectionException e then fallback else (inl e, s)
    | inr (c, dq, dx) =>
        match extract_bounds self c (isSome h1 || isSome h2) with
        | inl e => if caught_from_bounds self e then fallback else (inl e, s)
        | inr (box, db) =>
            (inr (vsub (vector box) (vector (measured_ self))),
             mkStore self (written h1 (mmul db dx)) (written h2 (mmul db dq)))
        end
    end.
Proof.
  intros s fallback. subst s fallback.
  destruct (project quadric pose (calibration_ self) (isSome h2) (isSome h1))
    as [e | [[c dq] dx]] eqn:Hp.
  - destruct (is_QuadricProjectionException e) eqn:Hq.
    + apply evaluateError_falls_back. unfold projection_fails. now rewrite Hp.
    + unfold evaluateError, evaluateError_with, Comp.try_catch, Comp.bind,
        Comp.gets, Comp.call. simpl. now rewrite Hp, Hq.
  - destruct (extract_bounds self c (isSome h1 || isSome h2)) as [e | [box db]] eqn:Hb.
    + destruct (caught_from_bounds self e) eqn:Hc.
      * apply evaluateError_falls_back. unfold projection_fails. now rewrite Hp, Hb.
      * unfold caught_from_bounds in Hc. unfold extract_bounds in Hb.
        unfold evaluateError, evaluateError_with, Comp.try_catch, Comp.bind,
          Comp.gets, Comp.call, Comp.throw. simpl.
        rewrite Hp. simpl. rewrite andb_true_r.
        destruct (errorType_ self); rewrite Hb; simpl.
        -- now rewrite Hc.
        -- apply orb_false_iff in Hc. destruct Hc as [Hq Hr]. now rewrite Hr, Hq.
    + now apply evaluateError_returns with (c := c).
Qed.

(** X1.  An exception that no handler names leaves the call as it was
    thrown, and the output arguments keep what they held.  That is: anything
    but a [QuadricProjectionException] from the projection or from the
    simple bounds extraction, and anything that is neither that nor a
    [std::runtime_error] from the strict one.  So a [std::runtime_error] of
    [bounds] escapes in the simple mode, while the same error of
    [smartBounds] ends in the fallback in the strict mode. *)
Theorem evaluateError_unhandled_escapes self pose quadric h1 h2 e :
  (project quadric pose (calibration_ self) (isSome h2) (isSome h1) = inl e
   /\ is_QuadricProjectionException e = false)
  \/ (exists c dq dx,
         project quadric pose (calibration_ self) (isSome h2) (isSome h1)
         = inr (c, dq, dx)
         /\ extract_bounds self c (isSome h1 || isSome h2) = inl e
         /\ caught_from_bounds self e = false) ->
  evaluateError pose quadric (mkStore self h1 h2) = (inl e, mkStore self h1 h2).
Proof.
  intros Hthrown. pose proof (evaluateError_run self pose quadric h1 h2) as Hrun.
  cbv zeta in Hrun. rewrite Hrun.
  destruct Hthrown as [[Hp Hq] | (c & dq & dx & Hp & Hb & Hc)].
  - now rewrite Hp, Hq.
  - now rewrite Hp, Hb, Hc.
Qed.

Lemma written_same_request (h h' : option (Matrix R)) (m : Matrix R) :
  isSome h = isSome h' -> written h m = written h' m.
Proof. destruct h, h'; simpl; intros E; try discriminate E; reflexivity. Qed.

(** X2.  The output arguments are outputs only.  Two calls that differ in
    what the matrices behind H1 and H2 hold beforehand, and not in which of
    them are passed, give the same residual or throw the same exception,
    and when they return they leave the same matrices behind. *)
Theorem evaluateError_overwrites self pose quadric h1 h1' h2 h2' :
  isSome h1 = isSome h1' -> isSome h2 = isSome h2' ->
  let run := evaluateError pose quadric (mkStore self h1 h2) in
  let run' := evaluateError pose quadric (mkStore self h1' h2') in
  fst run = fst run'
  /\ (forall r, fst run = inr r -> snd run = snd run').
Proof.
  intros E1 E2 run run'. subst run run'.
  pose proof (evaluateError_run self pose quadric h1 h2) as Hrun.
  pose proof (evaluateError_run self pose quadric h1' h2') as Hrun'.
  cbv zeta in Hrun, Hrun'. rewrite Hrun, Hrun'. clear Hrun Hrun'.
  rewrite <- E1, <- E2.
  rewrite !(written_same_request h1 h1' _ E1), !(written_same_request h2 h2' _ E2).
  destruct (project quadric pose (calibration_ self) (isSome h2) (isSome h1))
    as [e | [[c dq] dx]].
  - destruct (is_QuadricProjectionException e); simpl; split; try reflexivity.
    intros r Hr. discriminate Hr.
  - destruct (extract_bounds self c (isSome h1 || isSome h2)) as [e | [box db]].
    + destruct (caught_from_bounds self e); simpl; split; try reflexivity.
      intros r Hr. discriminate Hr.
    + rewrite !(written_same_request h1 h1' _ E1), !(written_same_request h2 h2' _ E2).
      simpl. split; reflexivity.
Qed.

Lemma vsub_length (a b : AlignedBox2 R) : length (vsub (vector a) (vector b)) = 4%nat.
Proof. reflexivity. Qed.

(** X3.  Dimensions.  Let the projection hand back a 9x9 and a 9x6
    Jacobian and the bounds extraction a 4x9 one whenever they are asked
    for them.  Then on every return of [evaluateError], with the residual
    or with the fallback, the residual has four components, a pose
    Jacobian that was passed is 4x6 and a quadric Jacobian that was passed
    is 4x9. *)
Theorem evaluateError_dimensions self pose quadric h1 h2 r s :
  (forall c dq dx,
      project quadric pose (calibration_ self) (isSome h2) (isSome h1) = inr (c, dq, dx) ->
      (isSome h2 = true -> has_shape 9 9 dq = true)
      /\ (isSome h1 = true -> has_shape 9 6 dx = true)) ->
  (forall c box db,
      extract_bounds self c true = inr (box, db) -> has_shape 4 9 db = true) ->
  evaluateError pose quadric (mkStore self h1 h2) = (inr r, s) ->
  length r = 4%nat
  /\ (isSome h1 = true -> exists m, H1 s = Some m /\ has_shape 4 6 m = true)
  /\ (isSome h2 = true -> exists m, H2 s = Some m /\ has_shape 4 9 m = true).
Proof.
  intros Hproject Hbounds Hrun.
  pose proof (evaluateError_run self pose quadric h1 h2) as E. cbv zeta in E.
  rewrite E in Hrun. clear E.
  assert (Hfallback :
            ((inr (vscale (Ones 4) (lit 1000)) : result (Vector R)),
             mkStore self (written h1 (Zero 4 6)) (written h2 (Zero 4 9)))
            = (inr r, s) ->
            length r = 4%nat
            /\ (isSome h1 = true -> exists m, H1 s = Some m /\ has_shape 4 6 m = true)
            /\ (isSome h2 = true -> exists m, H2 s = Some m /\ has_shape 4 9 m = true)).
  { intros [= <- <-]. split; [reflexivity | split]; intros Hreq.
    - destruct h1; [| discriminate]. exists (Zero 4 6). split; [reflexivity | apply Zero_shape].
    - destruct h2; [| discriminate]. exists (Zero 4 9). split; [reflexivity | apply Zero_shape]. }
  destruct (project quadric pose (calibration_ self) (isSome h2) (isSome h1))
    as [e | [[c dq] dx]] eqn:Hp.
  - destruct (is_QuadricProjectionException e); [now apply Hfallback | discriminate].
  - destruct (extract_bounds self c (isSome h1 || isSome h2)) as [e | [box db]] eqn:Hb.
    + destruct (caught_from_bounds self e); [now apply Hfallback | discriminate].
    + injection Hrun as <- <-. destruct (Hproject c dq dx eq_refl) as [Hq Hx].
      split; [apply vsub_length | split]; intros Hreq.
      * destruct h1; [| discriminate]. exists (mmul db dx). split; [reflexivity |].
        simpl in Hb. apply mmul_shape with (k := 8%nat).
        -- now apply (Hbounds c box db).
        -- now apply Hx.
      * destruct h2; [| discriminate]. exists (mmul db dq). split; [reflexivity |].
        rewrite Hreq, orb_true_r in Hb. apply mmul_shape with (k := 8%nat).
        -- now apply (Hbounds c box db).
        -- now apply Hq.
Qed.

(** X4.  Asking for Jacobians does not change the residual.  If the conic
    of the projection and the box of the bounds extraction, or the
    exception in their place, do not depend on which Jacobians are asked
    of them, a call with Jacobians returns the residual, or throws the
    exception, of the call without. *)
Theorem evaluateError_same_residual_with_jacobians self pose quadric h1 h2 :
  (forall dq dx,
      result_map (fun r => fst (fst r))
                 (project quadric pose (calibration_ self) dq dx)
      = result_map (fun r => fst (fst r))
                   (project quadric pose (calibration_ self) false false)) ->
  (forall c w,
      result_map fst (extract_bounds self c w)
      = result_map fst (extract_bounds self c false)) ->
  fst (evaluateError pose quadric (mkStore self h1 h2))
  = fst (evaluateError pose quadric (mkStore self None None)).
Proof.
  intros Hproject Hbounds.
  pose proof (evaluateError_run self pose quadric h1 h2) as E.
  pose proof (evaluateError_run self pose quadric None None) as E0.
  cbv zeta in E, E0. rewrite E, E0. clear E E0. simpl.
  specialize (Hproject (isSome h2) (isSome h1)).
  destruct (project quadric pose (calibration_ self) (isSome h2) (isSome h1))
    as [e | [[c dq] dx]];
    destruct (project quadric pose (calibration_ self) false false)
    as [e0 | [[c0 dq0] dx0]]; simpl in Hproject; try discriminate Hproject.
  - injection Hproject as <-. now destruct (is_QuadricProjectionException e).
  - injection Hproject as <-.
    specialize (Hbounds c (isSome h1 || isSome h2)).
    destruct (extract_bounds self c (isSome h1 || isSome h2)) as [e | [box db]];
      destruct (extract_bounds self c false) as [e0 | [box0 db0]];
      simpl in Hbounds; try discriminate Hbounds.
    + injection Hbounds as <-. now destruct (caught_from_bounds self e).
    + now injection Hbounds as <-.
Qed.
End FactorRuns.

Section AtMeasurement.
Context {R : Type} {SR : Scalar R} {C : Collaborators R}.

(** In the simple mode, at the pose and quadric its box was measured
    from and with no Jacobian asked for, a factor repeats the two calls of
    the measurement and subtracts the box from itself. *)
Lemma evaluateError_at_measurement (self : BoundingBoxFactor R) pose quadric :
  errorType_ self = SIMPLE ->
  measure quadric pose (calibration_ self) = inr (measured_ self) ->
  evaluateError pose quadric (mkStore self None None)
  = (inr (vsub (vector (measured_ self)) (vector (measured_ self))),
     mkStore self None None).
Proof.
  intros Hmode Hmeasure. unfold measure in Hmeasure.
  pose proof (evaluateError_run self pose quadric None None) as E.
  cbv zeta in E. simpl in E. unfold extract_bounds in E. rewrite Hmode in E.
  destruct (project quadric pose (calibration_ self) false false)
    as [e | [[c dq] dx]]; [discriminate Hmeasure |].
  destruct (bounds c false) as [e | [box db]]; [discriminate Hmeasure |].
  simpl in Hmeasure. injection Hmeasure as ->. exact E.
Qed.
End AtMeasurement.

Lemma vsub_self_zero (b : AlignedBox2 Q) :
  Forall (fun x => x == 0) (vsub (vector b) (vector b)).
Proof.
  unfold vector. simpl. repeat constructor; unfold Qminus; apply Qplus_opp_r.
Qed.

Section GroundTruth.
Context {C : Collaborators Q}.

(** X5.  A measurement taken from the truth has residual zero.  A factor
    in the simple mode whose measured box is the box that projecting the
    quadric into the pose and taking its bounds gave, as the example
    builds its factors (simpleExample.cpp:99-101), returns at that pose
    and quadric, no Jacobian asked for, a residual whose four components
    are zero. *)
Theorem ground_truth_residual (self : BoundingBoxFactor Q) pose quadric :
  errorType_ self = SIMPLE ->
  measure quadric pose (calibration_ self) = inr (measured_ self) ->
  exists r,
    evaluateError pose quadric (mkStore self None None)
    = (inr r, mkStore self None None)
    /\ length r = 4%nat
    /\ Forall (fun x => x == 0) r.
Proof.
  intros Hmode Hmeasure. eexists. split.
  - now apply evaluateError_at_measurement.
  - split; [reflexivity | apply vsub_self_zero].
Qed.
End GroundTruth.

Section ValuesOverloads.
Context {R : Type} {SR : Scalar R} {C : Collaborators R}.

End ValuesOverloads.
(* ===================================================================== *)
(** ** Properties of the example program *)
(* ===================================================================== *)

Section Loops.

Lemma unsigned_succ_of_nat (k : nat) :
  (N.of_nat (S k) < 2 ^ 32)%N -> unsigned_succ (N.of_nat k) = N.of_nat (S k).
Proof.
  intros Hk. unfold unsigned_succ. rewrite N.mod_small; lia.
Qed.

(** The loop rule: an invariant that every iteration below the bound
    re-establishes holds when the loop returns, and the loop does return
    when it is given one test more than it has iterations left. *)
Lemma for_unsigned_invariant {S : Type} (Inv : nat -> S -> Prop) (n : nat)
      (body : N -> S -> outcome S) :
  (N.of_nat n < 2 ^ 32)%N ->
  (forall i s, (i < n)%nat -> Inv i s ->
               exists s', body (N.of_nat i) s = Returns s' /\ Inv (Datatypes.S i) s') ->
  forall steps k s,
    (k <= n)%nat -> (n - k < steps)%nat -> Inv k s ->
    exists s', for_unsigned steps (N.of_nat k) (N.of_nat n) body s = Returns s'
               /\ Inv n s'.
Proof.
  intros Hn Hbody steps. induction steps as [| steps IH]; intros k s Hk Hsteps Hinv.
  - lia.
  - cbn [for_unsigned]. destruct (N.ltb_spec (N.of_nat k) (N.of_nat n)) as [Hlt | Hge].
    + assert (Hkn : (k < n)%nat) by lia.
      destruct (Hbody k s Hkn Hinv) as [s' [Hb Hinv']].
      rewrite Hb. cbn [outcome_bind].
      rewrite unsigned_succ_of_nat by lia.
      apply IH; [lia | lia | exact Hinv'].
    + assert (k = n) by lia. subst k. now exists s.
Qed.

(** An iteration that does not return ends the loop the same way. *)
Lemma for_unsigned_stops {S : Type} (Inv : nat -> S -> Prop) (n j : nat)
      (body : N -> S -> outcome S) (stop : outcome S) :
  (N.of_nat n < 2 ^ 32)%N -> (j < n)%nat ->
  (forall s', stop <> Returns s') ->
  (forall i s, (i < j)%nat -> Inv i s ->
               exists s', body (N.of_nat i) s = Returns s' /\ Inv (Datatypes.S i) s') ->
  (forall s, Inv j s -> body (N.of_nat j) s = stop) ->
  forall steps k s,
    (k <= j)%nat -> (j - k < steps)%nat -> Inv k s ->
    for_unsigned steps (N.of_nat k) (N.of_nat n) body s = stop.
Proof.
  intros Hn Hj Hstop Hbody Hlast steps.
  induction steps as [| steps IH]; intros k s Hk Hsteps Hinv.
  - lia.
  - cbn [for_unsigned]. destruct (N.ltb_spec (N.of_nat k) (N.of_nat n)) as [Hlt | Hge]; [| lia].
    destruct (Nat.eq_dec k j) as [-> | Hne].
    + rewrite (Hlast s Hinv). destruct stop; try reflexivity.
      exfalso. now apply (Hstop a).
    + assert (Hkj : (k < j)%nat) by lia.
      destruct (Hbody k s Hkj Hinv) as [s' [Hb Hinv']].
      rewrite Hb. cbn [outcome_bind].
      rewrite unsigned_succ_of_nat by lia.
      apply IH; [lia | lia | exact Hinv'].
Qed.

Lemma subscript_nth {A : Type} (v : list A) (i : nat) (a : A) :
  nth_error v i = Some a -> subscript v (N.of_nat i) = Returns a.
Proof. intros H. unfold subscript. now rewrite Nat2N.id, H. Qed.

Lemma nth_error_in_range {A : Type} (v : list A) (i : nat) :
  (i < length v)%nat -> exists a, nth_error v i = Some a.
Proof.
  intros Hi. destruct (nth_error v i) as [a |] eqn:E; [now exists a |].
  apply nth_error_None in E. lia.
Qed.

Lemma size_minus_1_nonempty {A : Type} (v : list A) :
  (0 < length v)%nat -> (N.of_nat (length v) < 2 ^ 32)%N ->
  size_minus_1 v = N.of_nat (length v - 1).
Proof.
  intros Hpos Hlen. unfold size_minus_1, size.
  replace (N.of_nat (length v) + 2 ^ 64 - 1)%N
    with (N.of_nat (length v - 1) + 1 * 2 ^ 64)%N by lia.
  rewrite N.Div0.mod_add. apply N.mod_small. lia.
Qed.

Lemma size_minus_1_empty {A : Type} : size_minus_1 (@nil A) = (2 ^ 64 - 1)%N.
Proof. reflexivity. Qed.
End Loops.

Section ExampleFacts.
Context {R : Type} {SR : Scalar R} {C : Collaborators R}.
Variable Symbol : ascii -> N -> Key.
Variable between : Pose3 -> Pose3 -> Pose3.
Variable compose : Pose3 -> Pose3 -> Pose3.
Variable perturbation : Pose3.
Variable errorType_default : ErrorType.

Lemma lookup_app_one (j k : Key) (v : Value) (x : Values) :
  lookup j (x ++ [(k, v)])
  = match lookup j x with
    | Some w => Some w
    | None => if N.eqb j k then Some v else None
    end.
Proof.
  induction x as [| [k' v'] x IH]; simpl; [reflexivity |].
  destruct (N.eqb j k'); [reflexivity | exact IH].
Qed.

(** A loop that inserts the elements of a vector under keys that are fresh
    and pairwise different: every insert goes through, every element is
    found under its key afterwards, every other key is as it was. *)
Lemma insert_loop_spec {A : Type} (v : list A) (key : N -> Key) (val : A -> Value)
      (estimate0 : Values) :
  (N.of_nat (length v) < 2 ^ 32)%N ->
  (forall i i', (i < length v)%nat -> (i' < length v)%nat ->
                key (N.of_nat i) = key (N.of_nat i') -> i = i') ->
  (forall i, (i < length v)%nat -> lookup (key (N.of_nat i)) estimate0 = None) ->
  exists estimate,
    for_unsigned (S (length v)) 0 (size v)
      (fun i estimate =>
         outcome_bind (subscript v i) (fun a =>
         of_result (Values_insert (key i) (val a) estimate)))
      estimate0
    = Returns estimate
    /\ length estimate = (length estimate0 + length v)%nat
    /\ (forall i a, nth_error v i = Some a ->
                    lookup (key (N.of_nat i)) estimate = Some (val a))
    /\ (forall k, (forall i, (i < length v)%nat -> k <> key (N.of_nat i)) ->
                  lookup k estimate = lookup k estimate0).
Proof.
  intros Hlen Hinj Hfresh.
  set (Inv := fun (i : nat) (estimate : Values) =>
                length estimate = (length estimate0 + i)%nat
                /\ (forall i' a, (i' < i)%nat -> nth_error v i' = Some a ->
                                 lookup (key (N.of_nat i')) estimate = Some (val a))
                /\ (forall k, (forall i', (i' < i)%nat -> k <> key (N.of_nat i')) ->
                              lookup k estimate = lookup k estimate0)).
  destruct (for_unsigned_invariant Inv (length v)
              (fun i estimate =>
                 outcome_bind (subscript v i) (fun a =>
                 of_result (Values_insert (key i) (val a) estimate)))
              Hlen) with (steps := S (length v)) (k := 0%nat) (s := estimate0)
    as [estimate [Hrun (Hl & Hfound & Hother)]].
  - intros i s Hi (Hl & Hfound & Hother).
    destruct (nth_error_in_range v i Hi) as [a Ha].
    rewrite (subscript_nth v i a Ha). cbn [outcome_bind].
    assert (Habsent : lookup (key (N.of_nat i)) s = None).
    { rewrite Hother; [now apply Hfresh |].
      intros i' Hi' Heq. apply Hinj in Heq; lia. }
    unfold Values_insert, Values_exists. rewrite Habsent. cbn [isSome of_result].
    eexists. split; [reflexivity |]. split; [| split].
    + rewrite length_app. simpl. lia.
    + intros i' a' Hi' Ha'. rewrite lookup_app_one.
      destruct (Nat.eq_dec i' i) as [-> | Hne].
      * rewrite Habsent, N.eqb_refl. congruence.
      * rewrite (Hfound i' a'); [reflexivity | lia | exact Ha'].
    + intros k Hk. rewrite lookup_app_one.
      rewrite Hother by (intros i' Hi'; apply Hk; lia).
      destruct (lookup k estimate0); [reflexivity |].
      destruct (N.eqb_spec k (key (N.of_nat i))) as [Heq | _]; [| reflexivity].
      exfalso. apply (Hk i); [lia | exact Heq].
  - lia.
  - lia.
  - split; [lia | split; [intros; lia | intros; reflexivity]].
  - exists estimate. split; [exact Hrun |]. split; [exact Hl |]. split.
    + intros i a Ha. apply Hfound; [| exact Ha].
      apply nth_error_Some. congruence.
    + exact Hother.
Qed.

(** The odometry loop on a trajectory that is not empty. *)
Lemma add_odometry_spec (trajectory : list Pose3)
      (graph : NonlinearFactorGraph (R := R)) :
  (0 < length trajectory)%nat -> (N.of_nat (length trajectory) < 2 ^ 32)%N ->
  exists added,
    add_odometry Symbol between trajectory graph = Returns (graph ++ added)
    /\ length added = (length trajectory - 1)%nat
    /\ (forall i a b,
           nth_error trajectory i = Some a -> nth_error trajectory (S i) = Some b ->
           nth_error added i
           = Some (BetweenFactor (Symbol "x" (N.of_nat i)) (Symbol "x" (N.of_nat (S i)))
                                 (between a b))).
Proof.
  intros Hpos Hlen. unfold add_odometry.
  rewrite (size_minus_1_nonempty trajectory Hpos Hlen).
  set (n := (length trajectory - 1)%nat).
  set (Inv := fun (i : nat) (g : NonlinearFactorGraph (R := R)) =>
                exists added,
                  g = graph ++ added /\ length added = i
                  /\ (forall i' a b, (i' < i)%nat ->
                        nth_error trajectory i' = Some a ->
                        nth_error trajectory (S i') = Some b ->
                        nth_error added i'
                        = Some (BetweenFactor (Symbol "x" (N.of_nat i'))
                                              (Symbol "x" (N.of_nat (S i')))
                                              (between a b)))).
  assert (Hn : (N.of_nat n < 2 ^ 32)%N) by (subst n; lia).
  destruct (for_unsigned_invariant Inv n
              (fun i graph =>
                 outcome_bind (subscript trajectory i) (fun a =>
                 outcome_bind (subscript trajectory (unsigned_succ i)) (fun b =>
                 Returns (graph ++ [BetweenFactor (Symbol "x" i)
                                                  (Symbol "x" (unsigned_succ i))
                                                  (between a b)]))))
              Hn) with (steps := S (length trajectory)) (k := 0%nat) (s := graph)
    as [g [Hrun (added & -> & Hl & Hnth)]].
  - intros i s Hi (added & -> & Hl & Hnth).
    destruct (nth_error_in_range trajectory i) as [a Ha]; [subst n; lia |].
    destruct (nth_error_in_range trajectory (S i)) as [b Hb]; [subst n; lia |].
    rewrite (subscript_nth trajectory i a Ha). cbn [outcome_bind].
    rewrite unsigned_succ_of_nat by (subst n; lia).
    rewrite (subscript_nth trajectory (S i) b Hb). cbn [outcome_bind].
    eexists. split; [reflexivity |].
    exists (added ++ [BetweenFactor (Symbol "x" (N.of_nat i)) (Symbol "x" (N.of_nat (S i)))
                                    (between a b)]).
    split; [now rewrite app_assoc | split].
    + rewrite length_app. simpl. lia.
    + intros i' a' b' Hi' Ha' Hb'. destruct (Nat.eq_dec i' i) as [-> | Hne].
      * rewrite nth_error_app2 by lia. rewrite Hl, Nat.sub_diag. simpl. congruence.
      * rewrite nth_error_app1 by lia. apply Hnth; [lia | assumption | assumption].
  - lia.
  - subst n. lia.
  - exists []. split; [now rewrite app_nil_r | split; [reflexivity | intros; lia]].
  - exists added. split; [exact Hrun | split; [exact Hl |]].
    intros i a b Ha Hb. apply Hnth; [| exact Ha | exact Hb].
    assert (S i < length trajectory)%nat by (apply nth_error_Some; congruence).
    subst n. lia.
Qed.

(** One pass of the inner loop of lines 98-103, for the quadric at [j]. *)
Lemma box_factors_inner_spec (quadrics : list ConstrainedDualQuadric)
      (trajectory : list Pose3) (calibration : Cal3_S2) (boxNoiseModel : SharedNoiseModel)
      (j : nat) (quadric : ConstrainedDualQuadric)
      (graph : NonlinearFactorGraph (R := R)) :
  (N.of_nat (length trajectory) < 2 ^ 32)%N ->
  nth_error quadrics j = Some quadric ->
  (forall i pose, nth_error trajectory i = Some pose ->
                  exists box, measure quadric pose calibration = inr box) ->
  exists added,
    for_unsigned (S (length trajectory)) 0 (size trajectory)
      (fun i graph =>
         outcome_bind (subscript quadrics (N.of_nat j)) (fun quadric =>
         outcome_bind (subscript trajectory i) (fun pose =>
         outcome_bind (of_result (measure quadric pose calibration)) (fun bounds =>
         Returns (graph ++ [BoxFactor (new_BoundingBoxFactor errorType_default
                                         bounds calibration
                                         (Symbol "x" i) (Symbol "q" (N.of_nat j))
                                         boxNoiseModel)])))))
      graph
    = Returns (graph ++ added)
    /\ length added = length trajectory
    /\ (forall i pose box,
           nth_error trajectory i = Some pose ->
           measure quadric pose calibration = inr box ->
           nth_error added i
           = Some (BoxFactor (new_BoundingBoxFactor errorType_default
                                box calibration
                                (Symbol "x" (N.of_nat i)) (Symbol "q" (N.of_nat j))
                                boxNoiseModel))).
Proof.
  intros Hlen Hq Hmeasure.
  set (Inv := fun (i : nat) (g : NonlinearFactorGraph (R := R)) =>
                exists added,
                  g = graph ++ added /\ length added = i
                  /\ (forall i' pose box, (i' < i)%nat ->
                        nth_error trajectory i' = Some pose ->
                        measure quadric pose calibration = inr box ->
                        nth_error added i'
                        = Some (BoxFactor (new_BoundingBoxFactor errorType_default
                                             box calibration
                                             (Symbol "x" (N.of_nat i'))
                                             (Symbol "q" (N.of_nat j))
                                             boxNoiseModel)))).
  destruct (for_unsigned_invariant Inv (length trajectory)
              (fun i graph =>
                 outcome_bind (subscript quadrics (N.of_nat j)) (fun quadric =>
                 outcome_bind (subscript trajectory i) (fun pose =>
                 outcome_bind (of_result (measure quadric pose calibration)) (fun bounds =>
                 Returns (graph ++ [BoxFactor (new_BoundingBoxFactor errorType_default
                                                 bounds calibration
                                                 (Symbol "x" i) (Symbol "q" (N.of_nat j))
                                                 boxNoiseModel)])))))
              Hlen) with (steps := S (length trajectory)) (k := 0%nat) (s := graph)
    as [g [Hrun (added & -> & Hl & Hnth)]].
  - intros i s Hi (added & -> & Hl & Hnth).
    destruct (nth_error_in_range trajectory i Hi) as [pose Hp].
    destruct (Hmeasure i pose Hp) as [box Hbox].
    rewrite (subscript_nth quadrics j quadric Hq). cbn [outcome_bind].
    rewrite (subscript_nth trajectory i pose Hp). cbn [outcome_bind].
    rewrite Hbox. cbn [of_result outcome_bind].
    eexists. split; [reflexivity |].
    eexists. split; [now rewrite <- app_assoc | split].
    + rewrite length_app. simpl. lia.
    + intros i' pose' box' Hi' Hp' Hbox'. destruct (Nat.eq_dec i' i) as [-> | Hne].
      * rewrite nth_error_app2 by lia. rewrite Hl, Nat.sub_diag. simpl. congruence.
      * rewrite nth_error_app1 by lia.
        apply (Hnth i' pose' box'); [lia | assumption | assumption].
  - lia.
  - lia.
  - exists []. split; [now rewrite app_nil_r | split; [reflexivity | intros; lia]].
  - exists added. split; [exact Hrun | split; [exact Hl |]].
    intros i pose box Hp Hbox. apply (Hnth i pose box); [| exact Hp | exact Hbox].
    apply nth_error_Some. congruence.
Qed.

(** The two nested loops of lines 97-104. *)
Lemma add_box_factors_spec (quadrics : list ConstrainedDualQuadric)
      (trajectory : list Pose3) (calibration : Cal3_S2) (boxNoiseModel : SharedNoiseModel)
      (graph : NonlinearFactorGraph (R := R)) :
  (N.of_nat (length trajectory) < 2 ^ 32)%N ->
  (N.of_nat (length quadrics) < 2 ^ 32)%N ->
  (forall j quadric i pose,
      nth_error quadrics j = Some quadric -> nth_error trajectory i = Some pose ->
      exists box, measure quadric pose calibration = inr box) ->
  exists added,
    add_box_factors Symbol errorType_default quadrics trajectory calibration
                    boxNoiseModel graph
    = Returns (graph ++ added)
    /\ length added = (length quadrics * length trajectory)%nat
    /\ (forall j quadric i pose box,
           nth_error quadrics j = Some quadric -> nth_error trajectory i = Some pose ->
           measure quadric pose calibration = inr box ->
           nth_error added (j * length trajectory + i)
           = Some (BoxFactor (new_BoundingBoxFactor errorType_default
                                box calibration
                                (Symbol "x" (N.of_nat i)) (Symbol "q" (N.of_nat j))
                                boxNoiseModel))).
Proof.
  intros Hn Hm Hmeasure. unfold add_box_factors.
  set (n := length trajectory).
  set (Inv := fun (j : nat) (g : NonlinearFactorGraph (R := R)) =>
                exists added,
                  g = graph ++ added /\ length added = (j * n)%nat
                  /\ (forall j' quadric i pose box, (j' < j)%nat ->
                        nth_error quadrics j' = Some quadric ->
                        nth_error trajectory i = Some pose ->
                        measure quadric pose calibration = inr box ->
                        nth_error added (j' * n + i)
                        = Some (BoxFactor (new_BoundingBoxFactor errorType_default
                                             box calibration
                                             (Symbol "x" (N.of_nat i))
                                             (Symbol "q" (N.of_nat j'))
                                             boxNoiseModel)))).
  destruct (for_unsigned_invariant Inv (length quadrics)
              (fun j graph =>
                 for_unsigned (S (length trajectory)) 0 (size trajectory)
                   (fun i graph =>
                      outcome_bind (subscript quadrics j) (fun quadric =>
                      outcome_bind (subscript trajectory i) (fun pose =>
                      outcome_bind (of_result (measure quadric pose calibration))
                                   (fun bounds =>
                      Returns (graph ++ [BoxFactor (new_BoundingBoxFactor
                                           errorType_default bounds calibration
                                           (Symbol "x" i) (Symbol "q" j)
                                           boxNoiseModel)])))))
                   graph)
              Hm) with (steps := S (length quadrics)) (k := 0%nat) (s := graph)
    as [g [Hrun (added & -> & Hl & Hnth)]].
  - intros j s Hj (added & -> & Hl & Hnth).
    destruct (nth_error_in_range quadrics j Hj) as [quadric Hq].
    destruct (box_factors_inner_spec quadrics trajectory calibration boxNoiseModel
                j quadric (graph ++ added) Hn Hq)
      as (row & Hrow & Hrl & Hrnth).
    { intros i pose Hp. now apply (Hmeasure j quadric i pose). }
    rewrite Hrow. eexists. split; [reflexivity |].
    exists (added ++ row). split; [now rewrite app_assoc | split].
    + rewrite length_app. fold n in Hrl. lia.
    + intros j' quadric' i pose box Hj' Hq' Hp Hbox.
      assert (Hi : (i < n)%nat) by (apply nth_error_Some; congruence).
      destruct (Nat.eq_dec j' j) as [-> | Hne].
      * rewrite nth_error_app2 by lia. rewrite Hl.
        replace (j * n + i - j * n)%nat with i by lia.
        assert (quadric' = quadric) by congruence. subst quadric'.
        now apply (Hrnth i pose box).
      * rewrite nth_error_app1 by nia.
        apply (Hnth j' quadric' i pose box); [lia | assumption | assumption | assumption].
  - lia.
  - lia.
  - exists []. split; [now rewrite app_nil_r | split; [reflexivity | intros; lia]].
  - exists added. split; [exact Hrun | split; [exact Hl |]].
    intros j quadric i pose box Hq Hp Hbox.
    apply (Hnth j quadric i pose box); [| assumption | assumption | assumption].
    apply nth_error_Some. congruence.
Qed.

Lemma Symbol_index_injective (c : ascii) (n : nat) :
  Symbol_injective Symbol -> (N.of_nat n < 2 ^ 32)%N ->
  forall i i', (i < n)%nat -> (i' < n)%nat ->
               Symbol c (N.of_nat i) = Symbol c (N.of_nat i') -> i = i'.
Proof.
  intros Hinj Hn i i' Hi Hi' Heq.
  apply Hinj in Heq; [| lia | lia]. destruct Heq as [_ Heq]. lia.
Qed.

(** The whole of lines 52-104 on a trajectory that is not empty, when
    every quadric projects into every pose. *)
Lemma build_example_spec (trajectory : list Pose3)
      (quadrics : list ConstrainedDualQuadric)
      (calibration : Cal3_S2) (boxNoiseModel : SharedNoiseModel) :
  (0 < length trajectory)%nat ->
  (N.of_nat (length trajectory) < 2 ^ 32)%N ->
  (N.of_nat (length quadrics) < 2 ^ 32)%N ->
  Symbol_injective Symbol ->
  (forall j quadric i pose,
      nth_error quadrics j = Some quadric -> nth_error trajectory i = Some pose ->
      exists box, measure quadric pose calibration = inr box) ->
  exists odometry boxes estimate,
    build_example Symbol between compose perturbation errorType_default
                  trajectory quadrics calibration boxNoiseModel
    = Returns (odometry ++ boxes, estimate)
    /\ (length odometry = (length trajectory - 1)%nat
        /\ forall i a b,
            nth_error trajectory i = Some a -> nth_error trajectory (S i) = Some b ->
            nth_error odometry i
            = Some (BetweenFactor (Symbol "x" (N.of_nat i)) (Symbol "x" (N.of_nat (S i)))
                                  (between a b)))
    /\ (length boxes = (length quadrics * length trajectory)%nat
        /\ forall j quadric i pose box,
            nth_error quadrics j = Some quadric -> nth_error trajectory i = Some pose ->
            measure quadric pose calibration = inr box ->
            nth_error boxes (j * length trajectory + i)
            = Some (BoxFactor (new_BoundingBoxFactor errorType_default
                                 box calibration
                                 (Symbol "x" (N.of_nat i)) (Symbol "q" (N.of_nat j))
                                 boxNoiseModel)))
    /\ (length estimate = (length trajectory + length quadrics)%nat
        /\ (forall i pose, nth_error trajectory i = Some pose ->
                           lookup (Symbol "x" (N.of_nat i)) estimate
                           = Some (PoseValue (compose pose perturbation)))
        /\ (forall j quadric, nth_error quadrics j = Some quadric ->
                              lookup (Symbol "q" (N.of_nat j)) estimate
                              = Some (QuadricValue quadric))
        /\ (forall k,
               (forall i, (i < length trajectory)%nat -> k <> Symbol "x" (N.of_nat i)) ->
               (forall j, (j < length quadrics)%nat -> k <> Symbol "q" (N.of_nat j)) ->
               lookup k estimate = None)).
Proof.
  intros Hpos Hn Hm Hinj Hmeasure. unfold build_example.
  destruct (insert_loop_spec trajectory (Symbol "x")
              (fun pose => PoseValue (compose pose perturbation)) [] Hn)
    as (est1 & Hrun1 & Hl1 & Hfound1 & Hother1).
  { now apply Symbol_index_injective. }
  { reflexivity. }
  unfold add_trajectory_estimate. cbv zeta. rewrite Hrun1. cbn [outcome_bind].
  destruct (insert_loop_spec quadrics (Symbol "q") QuadricValue est1 Hm)
    as (est2 & Hrun2 & Hl2 & Hfound2 & Hother2).
  { now apply Symbol_index_injective. }
  { intros j Hj. rewrite Hother1; [reflexivity |].
    intros i Hi Heq. apply Hinj in Heq; [| lia | lia]. destruct Heq as [Heq _].
    discriminate Heq. }
  unfold add_quadric_estimate. rewrite Hrun2. cbn [outcome_bind].
  destruct (add_odometry_spec trajectory [] Hpos Hn) as (odometry & Hrun3 & Hl3 & Hnth3).
  rewrite Hrun3. cbn [outcome_bind app].
  destruct (add_box_factors_spec quadrics trajectory calibration boxNoiseModel
              odometry Hn Hm Hmeasure) as (boxes & Hrun4 & Hl4 & Hnth4).
  rewrite Hrun4. cbn [outcome_bind].
  exists odometry, boxes, est2. split; [reflexivity |].
  split; [split; assumption |]. split; [split; assumption |].
  split; [simpl in Hl1; lia |]. split; [| split].
  - intros i pose Hp. rewrite Hother2.
    + now apply Hfound1.
    + intros j Hj Heq. apply Hinj in Heq; [| | lia].
      * destruct Heq as [Heq _]. discriminate Heq.
      * assert (i < length trajectory)%nat by (apply nth_error_Some; congruence). lia.
  - exact Hfound2.
  - intros k Hx Hq. rewrite Hother2 by exact Hq. now rewrite Hother1.
Qed.

(** Every element of a list sits at an index below its length. *)
Lemma In_index {A : Type} (l : list A) (a : A) :
  In a l -> exists i, (i < length l)%nat /\ nth_error l i = Some a.
Proof.
  intros Hin. apply In_nth_error in Hin. destruct Hin as [i Hi].
  exists i. split; [| exact Hi]. apply nth_error_Some. congruence.
Qed.

(** A failing measurement ends the inner loop, and with it the outer one,
    with its exception. *)
Lemma add_box_factors_throws (quadrics : list ConstrainedDualQuadric)
      (trajectory : list Pose3) (calibration : Cal3_S2) (boxNoiseModel : SharedNoiseModel)
      (graph : NonlinearFactorGraph (R := R))
      (j0 i0 : nat) (quadric0 : ConstrainedDualQuadric) (pose0 : Pose3) (e : exception) :
  (N.of_nat (length trajectory) < 2 ^ 32)%N ->
  (N.of_nat (length quadrics) < 2 ^ 32)%N ->
  nth_error quadrics j0 = Some quadric0 -> nth_error trajectory i0 = Some pose0 ->
  measure quadric0 pose0 calibration = inl e ->
  (forall j quadric i pose,
      (j < j0)%nat \/ (j = j0 /\ (i < i0)%nat) ->
      nth_error quadrics j = Some quadric -> nth_error trajectory i = Some pose ->
      exists box, measure quadric pose calibration = inr box) ->
  add_box_factors Symbol errorType_default quadrics trajectory calibration
                  boxNoiseModel graph
  = Throws e.
Proof.
  intros Hn Hm Hq0 Hp0 Hfail Hbefore. unfold add_box_factors.
  assert (Hj0 : (j0 < length quadrics)%nat) by (apply nth_error_Some; congruence).
  assert (Hi0 : (i0 < length trajectory)%nat) by (apply nth_error_Some; congruence).
  apply (for_unsigned_stops (fun _ _ => True) (length quadrics) j0) with (k := 0%nat);
    try lia; try exact I; try discriminate.
  - intros j s Hj _.
    destruct (nth_error_in_range quadrics j) as [quadric Hq]; [lia |].
    destruct (box_factors_inner_spec quadrics trajectory calibration boxNoiseModel
                j quadric s Hn Hq) as (row & Hrow & _).
    { intros i pose Hp. apply (Hbefore j quadric i pose); [left; lia | exact Hq | exact Hp]. }
    rewrite Hrow. eexists. split; [reflexivity | exact I].
  - intros s _.
    apply (for_unsigned_stops (fun _ _ => True) (length trajectory) i0) with (k := 0%nat);
      try lia; try exact I; try discriminate.
    + intros i s' Hi _.
      destruct (nth_error_in_range trajectory i) as [pose Hp]; [lia |].
      destruct (Hbefore j0 quadric0 i pose) as [box Hbox];
        [right; split; [reflexivity | exact Hi] | exact Hq0 | exact Hp |].
      rewrite (subscript_nth quadrics j0 quadric0 Hq0). cbn [outcome_bind].
      rewrite (subscript_nth trajectory i pose Hp). cbn [outcome_bind].
      rewrite Hbox. cbn [of_result outcome_bind].
      eexists. split; [reflexivity | exact I].
    + intros s' _.
      rewrite (subscript_nth quadrics j0 quadric0 Hq0). cbn [outcome_bind].
      rewrite (subscript_nth trajectory i0 pose0 Hp0). cbn [outcome_bind].
      now rewrite Hfail.
Qed.
End ExampleFacts.

Section ExampleProgram.
Context {R : Type} {SR : Scalar R} {C : Collaborators R}.
Variable Symbol : ascii -> N -> Key.
Variable between : Pose3 -> Pose3 -> Pose3.
Variable compose : Pose3 -> Pose3 -> Pose3.
Variable perturbation : Pose3.
Variable errorType_default : ErrorType.

(** X7.  The graph of the example.  For a trajectory of n >= 1 poses and m
    quadrics (both below 2^32, the range of the loop counters), keys that
    [Symbol] keeps apart, and projections that all return, lines 52-104
    return a graph of (n - 1) + m n factors and an estimate of n + m
    values.  The first n - 1 factors are the odometry: factor i is the
    [BetweenFactor] on ('x', i) and ('x', i+1) with the relative pose of
    poses i and i+1.  Then come the box factors, quadric by quadric: the
    factor for quadric j and pose i has index (n - 1) + j n + i, keys
    ('x', i) and ('q', j), and the box measured from the two. *)
Theorem build_example_graph (trajectory : list Pose3)
        (quadrics : list ConstrainedDualQuadric)
        (calibration : Cal3_S2) (boxNoiseModel : SharedNoiseModel) :
  (0 < length trajectory)%nat ->
  (N.of_nat (length trajectory) < 2 ^ 32)%N ->
  (N.of_nat (length quadrics) < 2 ^ 32)%N ->
  Symbol_injective Symbol ->
  (forall j quadric i pose,
      nth_error quadrics j = Some quadric -> nth_error trajectory i = Some pose ->
      exists box, measure quadric pose calibration = inr box) ->
  exists graph estimate,
    build_example Symbol between compose perturbation errorType_default
                  trajectory quadrics calibration boxNoiseModel
    = Returns (graph, estimate)
    /\ length graph
       = ((length trajectory - 1) + length quadrics * length trajectory)%nat
    /\ length estimate = (length trajectory + length quadrics)%nat
    /\ (forall i a b,
           nth_error trajectory i = Some a -> nth_error trajectory (S i) = Some b ->
           nth_error graph i
           = Some (BetweenFactor (Symbol "x" (N.of_nat i)) (Symbol "x" (N.of_nat (S i)))
                                 (between a b)))
    /\ (forall j quadric i pose box,
           nth_error quadrics j = Some quadric -> nth_error trajectory i = Some pose ->
           measure quadric pose calibration = inr box ->
           nth_error graph ((length trajectory - 1) + (j * length trajectory + i))
           = Some (BoxFactor (new_BoundingBoxFactor errorType_default
                                box calibration
                                (Symbol "x" (N.of_nat i)) (Symbol "q" (N.of_nat j))
                                boxNoiseModel))).
Proof.
  intros Hpos Hn Hm Hinj Hmeasure.
  destruct (build_example_spec Symbol between compose perturbation errorType_default
              trajectory quadrics calibration boxNoiseModel Hpos Hn Hm Hinj Hmeasure)
    as (odometry & boxes & estimate & Hrun & [Hlo Hno] & [Hlb Hnb] & [Hle _]).
  exists (odometry ++ boxes), estimate. split; [exact Hrun |].
  split; [rewrite length_app; lia |]. split; [exact Hle |]. split.
  - intros i a b Ha Hb.
    assert (S i < length trajectory)%nat by (apply nth_error_Some; congruence).
    rewrite nth_error_app1 by lia. now apply Hno.
  - intros j quadric i pose box Hq Hp Hbox.
    rewrite nth_error_app2 by lia. rewrite Hlo.
    replace (length trajectory - 1 + (j * length trajectory + i) - (length trajectory - 1))%nat
      with (j * length trajectory + i)%nat by lia.
    now apply (Hnb j quadric i pose box).
Qed.

(** X8.  No factor of the example refers to a variable that the initial
    estimate lacks.  Under the conditions of X7, for every box factor of
    the returned graph the estimate holds a pose under its pose key and a
    quadric under its object key, so the overloads on [Values] are the
    overloads on that pose and quadric; and the two keys of every
    odometry factor hold poses. *)
Theorem build_example_well_formed (trajectory : list Pose3)
        (quadrics : list ConstrainedDualQuadric)
        (calibration : Cal3_S2) (boxNoiseModel : SharedNoiseModel) :
  (0 < length trajectory)%nat ->
  (N.of_nat (length trajectory) < 2 ^ 32)%N ->
  (N.of_nat (length quadrics) < 2 ^ 32)%N ->
  Symbol_injective Symbol ->
  (forall j quadric i pose,
      nth_error quadrics j = Some quadric -> nth_error trajectory i = Some pose ->
      exists box, measure quadric pose calibration = inr box) ->
  exists graph estimate,
    build_example Symbol between compose perturbation errorType_default
                  trajectory quadrics calibration boxNoiseModel
    = Returns (graph, estimate)
    /\ (forall f, In (BoxFactor f) graph ->
                  exists pose quadric,
                    at_Pose3 estimate (poseKey f) = inr pose
                    /\ at_ConstrainedDualQuadric estimate (objectKey f) = inr quadric
                    /\ evaluateH1_Values f estimate = evaluateH1 f pose quadric
                    /\ evaluateH2_Values f estimate = evaluateH2 f pose quadric)
    /\ (forall k1 k2 measured, In (BetweenFactor k1 k2 measured) graph ->
                  exists pose1 pose2,
                    at_Pose3 estimate k1 = inr pose1
                    /\ at_Pose3 estimate k2 = inr pose2).
Proof.
  intros Hpos Hn Hm Hinj Hmeasure.
  destruct (build_example_spec Symbol between compose perturbation errorType_default
              trajectory quadrics calibration boxNoiseModel Hpos Hn Hm Hinj Hmeasure)
    as (odometry & boxes & estimate & Hrun & [Hlo Hno] & [Hlb Hnb]
        & (_ & Hposes & Hquadrics & _)).
  exists (odometry ++ boxes), estimate. split; [exact Hrun |].
  assert (Hodometry : forall g, In g odometry ->
            exists i a b,
              nth_error trajectory i = Some a /\ nth_error trajectory (S i) = Some b
              /\ g = BetweenFactor (Symbol "x" (N.of_nat i)) (Symbol "x" (N.of_nat (S i)))
                                   (between a b)).
  { intros g Hin. destruct (In_index odometry g Hin) as (i & Hi & Hg).
    destruct (nth_error_in_range trajectory i) as [a Ha]; [lia |].
    destruct (nth_error_in_range trajectory (S i)) as [b Hb]; [lia |].
    exists i, a, b. split; [exact Ha | split; [exact Hb |]].
    rewrite (Hno i a b Ha Hb) in Hg. congruence. }
  assert (Hboxes : forall g, In g boxes ->
            exists j quadric i pose box,
              nth_error quadrics j = Some quadric /\ nth_error trajectory i = Some pose
              /\ g = BoxFactor (new_BoundingBoxFactor errorType_default
                                  box calibration
                                  (Symbol "x" (N.of_nat i)) (Symbol "q" (N.of_nat j))
                                  boxNoiseModel)).
  { intros g Hin. destruct (In_index boxes g Hin) as (idx & Hidx & Hg).
    set (n := length trajectory) in *.
    assert (Hdm : idx = (n * (idx / n) + idx mod n)%nat) by (apply Nat.div_mod_eq).
    assert (Hmod : (idx mod n < n)%nat) by (apply Nat.mod_upper_bound; lia).
    assert (Hdiv : (idx / n < length quadrics)%nat)
      by (apply Nat.Div0.div_lt_upper_bound; lia).
    destruct (nth_error_in_range quadrics (idx / n) Hdiv) as [quadric Hq].
    destruct (nth_error_in_range trajectory (idx mod n) Hmod) as [pose Hp].
    destruct (Hmeasure _ _ _ _ Hq Hp) as [box Hbox].
    exists (idx / n)%nat, quadric, (idx mod n)%nat, pose, box.
    split; [exact Hq | split; [exact Hp |]].
    pose proof (Hnb _ _ _ _ _ Hq Hp Hbox) as Hat. fold n in Hat.
    replace (idx / n * n + idx mod n)%nat with idx in Hat by lia.
    congruence. }
  split.
  - intros f Hin. apply in_app_or in Hin. destruct Hin as [Hin | Hin].
    + destruct (Hodometry _ Hin) as (i & a & b & _ & _ & Heq). discriminate Heq.
    + destruct (Hboxes _ Hin) as (j & quadric & i & pose & box & Hq & Hp & Heq).
      injection Heq as ->.
      exists (compose pose perturbation), quadric.
      assert (Hat1 : at_Pose3 estimate (Symbol "x" (N.of_nat i))
                     = inr (compose pose perturbation))
        by (unfold at_Pose3; now rewrite (Hposes i pose Hp)).
      assert (Hat2 : at_ConstrainedDualQuadric estimate (Symbol "q" (N.of_nat j))
                     = inr quadric)
        by (unfold at_ConstrainedDualQuadric; now rewrite (Hquadrics j quadric Hq)).
      unfold evaluateH1_Values, evaluateH2_Values, poseKey, objectKey,
        new_BoundingBoxFactor. cbn [key1 key2].
      rewrite Hat1, Hat2. repeat split.
  - intros k1 k2 measured Hin. apply in_app_or in Hin. destruct Hin as [Hin | Hin].
    + destruct (Hodometry _ Hin) as (i & a & b & Ha & Hb & Heq).
      injection Heq as -> -> _.
      exists (compose a perturbation), (compose b perturbation).
      unfold at_Pose3. split.
      * now rewrite (Hposes i a Ha).
      * change (N.pos (Pos.of_succ_nat i)) with (N.of_nat (S i)).
        now rewrite (Hposes (S i) b Hb).
    + destruct (Hboxes _ Hin) as (j & quadric & i & pose & box & _ & _ & Heq).
      discriminate Heq.
Qed.

(** X9.  An empty trajectory.  [trajectory.size()-1] is computed on
    [size_t]: for the empty vector it is 2^64 - 1, the odometry loop is
    entered, and its first iteration reads [trajectory[0]] and
    [trajectory[1]] out of range.  So lines 52-104 have no defined result
    on an empty trajectory, whatever the quadrics. *)
Theorem build_example_empty_trajectory (quadrics : list ConstrainedDualQuadric)
        (calibration : Cal3_S2) (boxNoiseModel : SharedNoiseModel)
        (graph : NonlinearFactorGraph (R := R)) :
  size_minus_1 (@nil Pose3) = (2 ^ 64 - 1)%N
  /\ add_odometry Symbol between [] graph = Undefined
  /\ forall result,
      build_example Symbol between compose perturbation errorType_default
                    [] quadrics calibration boxNoiseModel
      <> Returns result.
Proof.
  split; [reflexivity | split; [reflexivity |]].
  intros result. unfold build_example.
  change (add_trajectory_estimate Symbol compose perturbation [] [])
    with (Returns (@nil (Key * Value))).
  cbn [outcome_bind].
  destruct (add_quadric_estimate Symbol quadrics []) as [estimate | e | |];
    cbn [outcome_bind]; discriminate.
Qed.

(** X10.  A projection that throws ends the program.  The example takes
    its measurements outside any handler: if the measurement of quadric j0
    in pose i0 throws, and the pairs before it (in the order of the loops:
    quadric by quadric, pose by pose) return, lines 52-104 end with that
    exception and no graph reaches the optimizer. *)
Theorem build_example_projection_throws (trajectory : list Pose3)
        (quadrics : list ConstrainedDualQuadric)
        (calibration : Cal3_S2) (boxNoiseModel : SharedNoiseModel)
        (j0 i0 : nat) (quadric0 : ConstrainedDualQuadric) (pose0 : Pose3) (e : exception) :
  (0 < length trajectory)%nat ->
  (N.of_nat (length trajectory) < 2 ^ 32)%N ->
  (N.of_nat (length quadrics) < 2 ^ 32)%N ->
  Symbol_injective Symbol ->
  nth_error quadrics j0 = Some quadric0 -> nth_error trajectory i0 = Some pose0 ->
  measure quadric0 pose0 calibration = inl e ->
  (forall j quadric i pose,
      (j < j0)%nat \/ (j = j0 /\ (i < i0)%nat) ->
      nth_error quadrics j = Some quadric -> nth_error trajectory i = Some pose ->
      exists box, measure quadric pose calibration = inr box) ->
  build_example Symbol between compose perturbation errorType_default
                trajectory quadrics calibration boxNoiseModel
  = Throws e.
Proof.
  intros Hpos Hn Hm Hinj Hq0 Hp0 Hfail Hbefore. unfold build_example.
  destruct (insert_loop_spec trajectory (Symbol "x")
              (fun pose => PoseValue (compose pose perturbation)) [] Hn)
    as (est1 & Hrun1 & _ & _ & Hother1).
  { now apply Symbol_index_injective. }
  { reflexivity. }
  unfold add_trajectory_estimate. cbv zeta. rewrite Hrun1. cbn [outcome_bind].
  destruct (insert_loop_spec quadrics (Symbol "q") QuadricValue est1 Hm)
    as (est2 & Hrun2 & _).
  { now apply Symbol_index_injective. }
  { intros j Hj. rewrite Hother1; [reflexivity |].
    intros i Hi Heq. apply Hinj in Heq; [| lia | lia]. destruct Heq as [Heq _].
    discriminate Heq. }
  unfold add_quadric_estimate. rewrite Hrun2. cbn [outcome_bind].
  destruct (add_odometry_spec Symbol between trajectory [] Hpos Hn)
    as (odometry & Hrun3 & _).
  rewrite Hrun3. cbn [outcome_bind app].
  now rewrite (add_box_factors_throws Symbol errorType_default
                 quadrics trajectory calibration boxNoiseModel
                 odometry j0 i0 quadric0 pose0 e Hn Hm Hq0 Hp0 Hfail Hbefore).
Qed.
End ExampleProgram.

Section ExampleGroundTruth.
Context {C : Collaborators Q}.
Variable Symbol : ascii -> N -> Key.
Variable between : Pose3 -> Pose3 -> Pose3.
Variable compose : Pose3 -> Pose3 -> Pose3.
Variable perturbation : Pose3.

(** X11.  The box factors of the example agree with the truth.  Under the
    conditions of X7 and with the simple mode as the error type of the
    constructor, the box factor that the example adds for quadric j and
    pose i returns, at that pose and that quadric and with no Jacobian
    asked for, a residual of four zeros. *)
Theorem build_example_ground_truth (trajectory : list Pose3)
        (quadrics : list ConstrainedDualQuadric)
        (calibration : Cal3_S2) (boxNoiseModel : SharedNoiseModel) :
  (0 < length trajectory)%nat ->
  (N.of_nat (length trajectory) < 2 ^ 32)%N ->
  (N.of_nat (length quadrics) < 2 ^ 32)%N ->
  Symbol_injective Symbol ->
  (forall j quadric i pose,
      nth_error quadrics j = Some quadric -> nth_error trajectory i = Some pose ->
      exists box, measure quadric pose calibration = inr box) ->
  exists graph estimate,
    build_example Symbol between compose perturbation SIMPLE
                  trajectory quadrics calibration boxNoiseModel
    = Returns (graph, estimate)
    /\ forall j quadric i pose,
        nth_error quadrics j = Some quadric -> nth_error trajectory i = Some pose ->
        exists f r,
          nth_error graph ((length trajectory - 1) + (j * length trajectory + i))
          = Some (BoxFactor f)
          /\ evaluateError pose quadric (mkStore f None None)
             = (inr r, mkStore f None None)
          /\ length r = 4%nat
          /\ Forall (fun x => x == 0) r.
Proof.
  intros Hpos Hn Hm Hinj Hmeasure.
  destruct (build_example_spec Symbol between compose perturbation SIMPLE
              trajectory quadrics calibration boxNoiseModel Hpos Hn Hm Hinj Hmeasure)
    as (odometry & boxes & estimate & Hrun & [Hlo _] & [_ Hnb] & _).
  exists (odometry ++ boxes), estimate. split; [exact Hrun |].
  intros j quadric i pose Hq Hp.
  destruct (Hmeasure j quadric i pose Hq Hp) as [box Hbox].
  eexists. eexists. split; [| split; [| split]].
  - rewrite nth_error_app2 by lia. rewrite Hlo.
    replace (length trajectory - 1 + (j * length trajectory + i) - (length trajectory - 1))%nat
      with (j * length trajectory + i)%nat by lia.
    exact (Hnb j quadric i pose box Hq Hp Hbox).
  - apply evaluateError_at_measurement; [reflexivity | exact Hbox].
  - reflexivity.
  - apply vsub_self_zero.
Qed.
End ExampleGroundTruth.

(* ===================================================================== *)
(** ** The example program on its scene *)
(* ===================================================================== *)

Module ExampleRunFacts.
Import SpecModel SpecCollab ExampleRun.

Lemma Symbol_is_injective : Symbol_injective Symbol.
Proof.
  intros c c' i i' Hi Hi' Heq. unfold Symbol in Heq.
  assert (Hc : N_of_ascii c = N_of_ascii c' /\ i = i').
  { change (2 ^ 32)%N with 4294967296%N in Hi, Hi'.
    change (2 ^ 56)%N with 72057594037927936%N in Heq. lia. }
  destruct Hc as [Hc ->]. split; [| reflexivity].
  rewrite <- (ascii_N_embedding c), <- (ascii_N_embedding c'). now rewrite Hc.
Qed.

Lemma every_measurement_returns :
  forall j quadric i pose,
    nth_error quadrics j = Some quadric -> nth_error trajectory i = Some pose ->
    exists box,
      measure (C := collaborators example_unspecified) quadric pose example_calibration
      = inr box.
Proof.
  intros j quadric i pose Hq Hp.
  apply nth_error_In in Hq. apply nth_error_In in Hp.
  assert (Hall :
            forallb (fun q =>
              forallb (fun p =>
                match measure (C := collaborators example_unspecified)
                              q p example_calibration with
                | inr _ => true
                | inl _ => false
                end) trajectory) quadrics = true) by (vm_compute; reflexivity).
  rewrite forallb_forall in Hall. specialize (Hall quadric Hq).
  rewrite forallb_forall in Hall. specialize (Hall pose Hp).
  destruct (measure (C := collaborators example_unspecified)
                    quadric pose example_calibration) as [e | box];
    [discriminate Hall | now exists box].
Qed.

Lemma trajectory_fits : (N.of_nat (length trajectory) < 2 ^ 32)%N.
Proof. reflexivity. Qed.

Lemma quadrics_fit : (N.of_nat (length quadrics) < 2 ^ 32)%N.
Proof. reflexivity. Qed.

Lemma trajectory_not_empty : (0 < length trajectory)%nat.
Proof. simpl. lia. Qed.
End ExampleRunFacts.

Module ExtraExamples.
Import SpecModel SpecCollab ExampleRun ExampleRunFacts.

(** The strict mode with an extraction that runs out of memory: the
    exception is of no class a handler names. *)
Lemma evaluateError_unhandled_escapes_witness :
  let self := example_factor out_of_memory example_box example_calibration COMPLEX in
  evaluateError (C := collaborators out_of_memory) pose_outside example_quadric
    (mkStore self (Some empty_Matrix) None)
  = (inl (std_exception "std::bad_alloc"), mkStore self (Some empty_Matrix) None).
Proof.
  intros self.
  refine (evaluateError_unhandled_escapes (C := collaborators out_of_memory)
            self pose_outside example_quadric (Some empty_Matrix) None
            (std_exception "std::bad_alloc") _).
  right.
  exists (project_conic example_quadric pose_outside example_calibration),
    (Zero 9 9), (Zero 9 6).
  repeat split.
Defined.

Lemma evaluateError_overwrites_witness :
  let u := example_unspecified in
  let self := example_factor u example_box example_calibration SIMPLE in
  fst (evaluateError (C := collaborators u) pose_outside example_quadric
         (mkStore self (Some empty_Matrix) None))
  = fst (evaluateError (C := collaborators u) pose_outside example_quadric
           (mkStore self (Some (Zero 4 6)) None)).
Proof.
  intros u self.
  exact (proj1 (evaluateError_overwrites (C := collaborators u)
                  self pose_outside example_quadric
                  (Some empty_Matrix) (Some (Zero 4 6)) None None eq_refl eq_refl)).
Defined.

Lemma evaluateError_dimensions_witness :
  let u := example_unspecified in
  let self := example_factor u example_box example_calibration SIMPLE in
  exists r s,
    evaluateError (C := collaborators u) pose_outside example_quadric
      (mkStore self (Some empty_Matrix) (Some empty_Matrix))
    = (inr r, s)
    /\ length r = 4%nat
    /\ (exists m, H1 s = Some m /\ has_shape 4 6 m = true)
    /\ (exists m, H2 s = Some m /\ has_shape 4 9 m = true).
Proof.
  intros u self.
  let v := eval vm_compute in
             (evaluateError (C := collaborators u) pose_outside example_quadric
                (mkStore self (Some empty_Matrix) (Some empty_Matrix))) in
  lazymatch v with
  | (inr ?r, ?s) =>
      exists r, s;
      assert (Hrun : evaluateError (C := collaborators u) pose_outside example_quadric
                       (mkStore self (Some empty_Matrix) (Some empty_Matrix))
                     = (inr r, s))
        by (vm_cast_no_check (eq_refl (@inr exception (Vector Q) r, s)));
      split; [exact Hrun |];
      destruct (evaluateError_dimensions (C := collaborators u)
                  self pose_outside example_quadric
                  (Some empty_Matrix) (Some empty_Matrix) r s) as (Hl & Hm1 & Hm2);
      [ | | exact Hrun | exact (conj Hl (conj (Hm1 eq_refl) (Hm2 eq_refl)))]
  end.
  - intros c dq dx Hp. injection Hp as _ <- <-. split; reflexivity.
  - intros c box db Hb. unfold extract_bounds in Hb. cbn in Hb.
    unfold spec_bounds in Hb.
    destruct (has_proper_box c); [| discriminate Hb].
    injection Hb as _ <-. reflexivity.
Defined.

Lemma evaluateError_same_residual_with_jacobians_witness :
  let u := example_unspecified in
  let self := example_factor u example_box example_calibration SIMPLE in
  fst (evaluateError (C := collaborators u) pose_outside example_quadric
         (mkStore self (Some empty_Matrix) (Some empty_Matrix)))
  = fst (evaluateError (C := collaborators u) pose_outside example_quadric
           (mkStore self None None)).
Proof.
  intros u self.
  refine (evaluateError_same_residual_with_jacobians (C := collaborators u)
            self pose_outside example_quadric
            (Some empty_Matrix) (Some empty_Matrix) _ _).
  - intros dq dx. reflexivity.
  - intros c w. reflexivity.
Defined.

Lemma ground_truth_residual_witness :
  exists r,
    evaluateError (C := collaborators example_unspecified) pose_outside example_quadric
      (mkStore true_factor None None)
    = (inr r, mkStore true_factor None None)
    /\ length r = 4%nat
    /\ Forall (fun x => x == 0) r.
Proof.
  refine (ground_truth_residual (C := collaborators example_unspecified)
            true_factor pose_outside example_quadric eq_refl _).
  vm_compute. reflexivity.
Defined.

(** The scene of the example: five poses and two quadrics give four
    odometry and ten box factors on seven variables. *)
Lemma build_example_graph_witness :
  exists graph estimate,
    build_example (C := collaborators example_unspecified)
                  Symbol between compose perturbation SIMPLE
                  trajectory quadrics example_calibration boxNoiseModel
    = Returns (graph, estimate)
    /\ length graph = 14%nat
    /\ length estimate = 7%nat.
Proof.
  destruct (build_example_graph (C := collaborators example_unspecified)
              Symbol between compose perturbation SIMPLE
              trajectory quadrics example_calibration boxNoiseModel
              trajectory_not_empty trajectory_fits quadrics_fit
              Symbol_is_injective every_measurement_returns)
    as (graph & estimate & Hrun & Hlg & Hle & _).
  exists graph, estimate. exact (conj Hrun (conj Hlg Hle)).
Defined.

Lemma build_example_well_formed_witness :
  exists graph estimate,
    build_example (C := collaborators example_unspecified)
                  Symbol between compose perturbation SIMPLE
                  trajectory quadrics example_calibration boxNoiseModel
    = Returns (graph, estimate)
    /\ forall k1 k2 measured,
        In (BetweenFactor k1 k2 measured) graph ->
        exists pose1 pose2,
          at_Pose3 estimate k1 = inr pose1 /\ at_Pose3 estimate k2 = inr pose2.
Proof.
  destruct (build_example_well_formed (C := collaborators example_unspecified)
              Symbol between compose perturbation SIMPLE
              trajectory quadrics example_calibration boxNoiseModel
              trajectory_not_empty trajectory_fits quadrics_fit
              Symbol_is_injective every_measurement_returns)
    as (graph & estimate & Hrun & _ & Hodometry).
  exists graph, estimate. exact (conj Hrun Hodometry).
Defined.

(** A camera on the surface of the unit sphere: the first measurement
    already throws. *)
Lemma build_example_projection_throws_witness :
  build_example (C := collaborators example_unspecified)
                Symbol between compose perturbation SIMPLE
                [pose_on_surface] [unit_sphere] unit_calibration boxNoiseModel
  = Throws DegenerateConic.
Proof.
  refine (build_example_projection_throws (C := collaborators example_unspecified)
            Symbol between compose perturbation SIMPLE
            [pose_on_surface] [unit_sphere] unit_calibration boxNoiseModel
            0 0 unit_sphere pose_on_surface DegenerateConic
            _ _ _ Symbol_is_injective eq_refl eq_refl _ _).
  - simpl. lia.
  - reflexivity.
  - reflexivity.
  - vm_compute. reflexivity.
  - intros j quadric i pose [Hj | [_ Hi]]; lia.
Defined.

Lemma build_example_ground_truth_witness :
  exists graph estimate,
    build_example (C := collaborators example_unspecified)
                  Symbol between compose perturbation SIMPLE
                  trajectory quadrics example_calibration boxNoiseModel
    = Returns (graph, estimate)
    /\ exists f r,
        nth_error graph 4 = Some (BoxFactor f)
        /\ evaluateError (C := collaborators example_unspecified)
             (mkPose3 [[0; 0; -1]; [1; 0; 0]; [0; -1; 0]] [10; 0; 0])
             (mkConstrainedDualQuadric (mkPose3 I3 [0; 0; 0]) [1; 2; 3])
             (mkStore f None None)
           = (inr r, mkStore f None None)
        /\ length r = 4%nat
        /\ Forall (fun x => x == 0) r.
Proof.
  destruct (build_example_ground_truth (C := collaborators example_unspecified)
              Symbol between compose perturbation
              trajectory quadrics example_calibration boxNoiseModel
              trajectory_not_empty trajectory_fits quadrics_fit
              Symbol_is_injective every_measurement_returns)
    as (graph & estimate & Hrun & Hzero).
  exists graph, estimate. split; [exact Hrun |].
  exact (Hzero 0%nat _ 0%nat _ eq_refl eq_refl).
Defined.
End ExtraExamples.
